(** * SIR epidemic simulation: the Person state machine and the Population
      day-advance engine (Person.cpp, Population.cpp), embedded and verified.

    Conventions of the embedding.
    - [int] values are integers of [Z]; every [int] result of [++], [--],
      [-] or a conversion from [size_t] goes through [to_int], the 32-bit
      two's-complement value (signed overflow has no defined meaning in C++;
      the model takes what the compiled code computes).
    - [float] values are only stored and compared, never computed with; a
      finite float is represented by the rational it denotes, and [<=] on
      floats is [Qle_bool] on those rationals (NaN is not represented).
    - A [Person*] into the [population] vector is the index of that element.
    - A method that can throw returns an [outcome]: the object as the call
      leaves it, normally or at the throw. *)

From Stdlib Require Import ZArith QArith Lia String Bool.
From stdpp Require Import base list.

Local Open Scope string_scope.
Local Open Scope list_scope.
Local Open Scope Z_scope.

(** ** Machine integers *)

Definition INT_MAX : Z := 2 ^ 31 - 1.

Definition to_int (z : Z) : Z := (z + 2 ^ 31) mod 2 ^ 32 - 2 ^ 31.

(** ** Exceptions and outcomes *)

Inductive exception : Type :=
| invalid_argument
| length_error.

(** How a call ends: it returns, it throws (the object is as the call left
    it at the throw), or the C++ standard gives the call no meaning. *)
Inductive outcome (State : Type) : Type :=
| Returned (s : State)
| Thrown (e : exception) (s : State)
| Undefined.

Arguments Returned {State} s.
Arguments Thrown {State} e s.
Arguments Undefined {State}.

(** ** Person.cpp *)

Record Person : Type := mkPerson {
  infectionDays : Z;
  current : string
}.

(** [Person::Person()] *)
Definition Person_new : Person :=
  {| infectionDays := 0; current := "susceptible" |}.

Definition isRecovered (p : Person) : bool := String.eqb (current p) "recovered".
Definition isInfected (p : Person) : bool := String.eqb (current p) "sick".
Definition isSusceptible (p : Person) : bool := String.eqb (current p) "susceptible".
Definition getStatus (p : Person) : string := current p.
Definition getRemainingInfectionDays (p : Person) : Z := infectionDays p.

(** [Person::updateState()] *)
Definition updateState (p : Person) : Person :=
  if String.eqb (current p) "sick" then
    let days := to_int (infectionDays p - 1) in
    if days <=? 0 then {| infectionDays := 0; current := "recovered" |}
    else {| infectionDays := days; current := current p |}
  else p.

(** [Person::infect(int duration)] *)
Definition infect (duration : Z) (p : Person) : outcome Person :=
  if duration <=? 0 then Thrown invalid_argument p
  else if String.eqb (current p) "susceptible"
       then Returned {| infectionDays := duration; current := "sick" |}
       else Returned p.

(** Calls a client can make on a Person, and the object after a sequence of
    them (a throwing call leaves the object as it was at the throw). *)
Inductive person_call : Type :=
| CallInfect (duration : Z)
| CallUpdateState.

Definition after_outcome {State : Type} (dflt : State) (o : outcome State) : State :=
  match o with
  | Returned s => s
  | Thrown _ s => s
  | Undefined => dflt
  end.

Definition person_step (p : Person) (c : person_call) : Person :=
  match c with
  | CallInfect d => after_outcome p (infect d p)
  | CallUpdateState => updateState p
  end.

Definition person_run (calls : list person_call) (p : Person) : Person :=
  fold_left person_step calls p.

(** ** The random number library, as far as the code uses it

    [std::mt19937 gen(rd())] is an engine freshly seeded from the entropy
    source: the sequence of its outputs, with the position reached.  A
    distribution maps one output into its range.  Every output sequence is
    an engine of the model, and the two maps below stand for the library's:
    the model has every behaviour of the library and more, so what is proved
    for all engines holds of the library's, while a concrete run is a run
    of the program only when its draws are draws of [std::mt19937]. *)

Record mt19937 : Type := mkEngine {
  outputs : nat -> Z;
  position : nat
}.

Definition engine_next (gen : mt19937) : Z * mt19937 :=
  (outputs gen (position gen),
   {| outputs := outputs gen; position := S (position gen) |}).

(** [std::uniform_int_distribution<>(a, b)(gen)]: a value of [a..b]. *)
Definition uniform_int_distribution (a b : Z) (gen : mt19937) : Z * mt19937 :=
  let (x, gen') := engine_next gen in (a + x mod (b - a + 1), gen').

(** [std::uniform_real_distribution<float>(0.0, 1.0)(gen)]: a value of [0, 1). *)
Definition uniform_real_distribution (gen : mt19937) : Q * mt19937 :=
  let (x, gen') := engine_next gen in
  (Qmake (x mod 2 ^ 32) (2 ^ 32), gen').

(** ** Population.cpp *)

Record Population : Type := mkPopulation {
  size : Z;
  day : Z;
  countInfected : Z;
  countSusceptible : Z;
  countRecovered : Z;
  infectionProbability : Q;
  contactsPerDay : Z;
  infectionDuration : Z;
  population : list Person
}.

Definition set_population (l : list Person) (p : Population) : Population :=
  mkPopulation (size p) (day p) (countInfected p) (countSusceptible p)
    (countRecovered p) (infectionProbability p) (contactsPerDay p)
    (infectionDuration p) l.

Definition set_day (d : Z) (p : Population) : Population :=
  mkPopulation (size p) d (countInfected p) (countSusceptible p)
    (countRecovered p) (infectionProbability p) (contactsPerDay p)
    (infectionDuration p) (population p).

Definition set_counts (i s r : Z) (p : Population) : Population :=
  mkPopulation (size p) (day p) i s r (infectionProbability p)
    (contactsPerDay p) (infectionDuration p) (population p).

(** [Population::Population(int populationSize)]: [reserve] of a negative
    size, converted to [size_t], exceeds [max_size()] and throws. *)
Definition Population_new (populationSize : Z) : exception + Population :=
  if populationSize <? 0 then inl length_error
  else inr {| size := populationSize; day := 0; countInfected := 0;
              countSusceptible := populationSize; countRecovered := 0;
              infectionProbability := 0%Q; contactsPerDay := 0;
              infectionDuration := 0;
              population := replicate (Z.to_nat populationSize) Person_new |}.

Definition getCurrentDay (p : Population) : Z := day p.
Definition getPopulationSize (p : Population) : Z := size p.
Definition getSusceptibleCount (p : Population) : Z := countSusceptible p.
Definition getInfectedCount (p : Population) : Z := countInfected p.
Definition getRecoveredCount (p : Population) : Z := countRecovered p.
Definition getInfectionProbability (p : Population) : Q := infectionProbability p.
Definition getContactsPerDay (p : Population) : Z := contactsPerDay p.
Definition getInfectionDuration (p : Population) : Z := infectionDuration p.

Definition setInfectionProbability (probability : Q) (p : Population) : Population :=
  mkPopulation (size p) (day p) (countInfected p) (countSusceptible p)
    (countRecovered p) probability (contactsPerDay p) (infectionDuration p)
    (population p).

Definition setContactsPerDay (contacts : Z) (p : Population) : Population :=
  mkPopulation (size p) (day p) (countInfected p) (countSusceptible p)
    (countRecovered p) (infectionProbability p) contacts (infectionDuration p)
    (population p).

Definition setInfectionDuration (days : Z) (p : Population) : Population :=
  mkPopulation (size p) (day p) (countInfected p) (countSusceptible p)
    (countRecovered p) (infectionProbability p) (contactsPerDay p) days
    (population p).

(** [Population::infectPerson(Person* person)]; a pointer outside the vector
    has no defined behaviour. *)
Definition infectPerson (person : nat) (p : Population) : outcome Population :=
  match population p !! person with
  | None => Undefined
  | Some who =>
      match infect (infectionDuration p) who with
      | Returned who' => Returned (set_population (<[person := who']> (population p)) p)
      | Thrown e who' => Thrown e (set_population (<[person := who']> (population p)) p)
      | Undefined => Undefined
      end
  end.

(** [Population::infectRandomPerson()] *)
Definition infectRandomPerson (gen : mt19937) (p : Population) : outcome Population :=
  let (index, _) := uniform_int_distribution 0 (to_int (size p - 1)) gen in
  infectPerson (Z.to_nat index) p.

(** The [for] loop of [Population::simulateTransmission]: [i] is the loop
    variable, [newlyInfected] the vector being filled, [drawn] a ghost record
    of the values [personDis(gen)] returned.  [None] when [fuel] iterations
    do not finish the loop, or an index leaves the vector. *)
Fixpoint contactLoop (fuel : nat) (i : Z) (p : Population) (gen : mt19937)
    (newlyInfected drawn : list nat) : option (list nat * list nat) :=
  let n := length (population p) in
  if (i <? contactsPerDay p) && (i <? to_int (to_int (Z.of_nat n) - 1)) then
    match fuel with
    | O => None
    | S fuel' =>
        let (contactIndex, gen1) :=
          uniform_int_distribution 0 (to_int (Z.of_nat n - 1)) gen in
        let contactPerson := Z.to_nat contactIndex in
        match population p !! contactPerson with
        | None => None
        | Some who =>
            if isSusceptible who then
              let (u, gen2) := uniform_real_distribution gen1 in
              if Qle_bool u (infectionProbability p)
              then contactLoop fuel' (to_int (i + 1)) p gen2
                     (newlyInfected ++ [contactPerson]) (drawn ++ [contactPerson])
              else contactLoop fuel' (to_int (i + 1)) p gen2
                     newlyInfected (drawn ++ [contactPerson])
            else contactLoop fuel' (to_int (i + 1)) p gen1
                   newlyInfected (drawn ++ [contactPerson])
        end
    end
  else Some (newlyInfected, drawn).

(** [Population::simulateTransmission(std::vector<Person*>& newlyInfected)]:
    the vector after the call, and the contacts drawn. *)
Definition simulateTransmission (gen : mt19937) (p : Population)
    (newlyInfected : list nat) : option (list nat * list nat) :=
  contactLoop (length (population p)) 0 p gen newlyInfected [].

(** What the first loop of [simulateOneDay] has built: the object, the
    [newlyInfected] vector, and per transmitting member the contacts drawn. *)
Record dayState : Type := mkDayState {
  cohort : Population;
  newly : list nat;
  contactLog : list (nat * list nat)
}.

(** First loop of [Population::simulateOneDay]: the members from position
    [j] on, [todo] of them; [rd j] is the engine seeded for member [j]. *)
Fixpoint personLoop (todo : nat) (j : nat) (rd : nat -> mt19937) (s : dayState)
    : option dayState :=
  match todo with
  | O => Some s
  | S todo' =>
      match population (cohort s) !! j with
      | None => None
      | Some person =>
          let transmitted :=
            if isInfected person then
              match simulateTransmission (rd j) (cohort s) (newly s) with
              | None => None
              | Some (newlyInfected, drawn) =>
                  Some (newlyInfected, contactLog s ++ [(j, drawn)])
              end
            else Some (newly s, contactLog s) in
          match transmitted with
          | None => None
          | Some (newlyInfected, log) =>
              personLoop todo' (S j) rd
                {| cohort := set_population
                               (<[j := updateState person]> (population (cohort s)))
                               (cohort s);
                   newly := newlyInfected;
                   contactLog := log |}
          end
      end
  end.

(** Second loop of [Population::simulateOneDay]. *)
Fixpoint infectAll (newlyInfected : list nat) (p : Population) : outcome Population :=
  match newlyInfected with
  | [] => Returned p
  | person :: rest =>
      match infectPerson person p with
      | Returned p' => infectAll rest p'
      | Thrown e p' => Thrown e p'
      | Undefined => Undefined
      end
  end.

(** Loop of [Population::updateCounts]: [(infected, susceptible, recovered)]. *)
Fixpoint countLoop (people : list Person) (c : Z * Z * Z) : Z * Z * Z :=
  match people with
  | [] => c
  | person :: rest =>
      let '(i, s, r) := c in
      if isInfected person then countLoop rest (to_int (i + 1), s, r)
      else if isSusceptible person then countLoop rest (i, to_int (s + 1), r)
      else if isRecovered person then countLoop rest (i, s, to_int (r + 1))
      else countLoop rest (i, s, r)
  end.

(** [Population::updateCounts()] *)
Definition updateCounts (p : Population) : Population :=
  let '(i, s, r) := countLoop (population p) (0, 0, 0) in
  set_counts i s r p.

(** The first loop of [simulateOneDay] from a fresh [newlyInfected]. *)
Definition dayLoop (rd : nat -> mt19937) (p : Population) : option dayState :=
  personLoop (length (population p)) 0 rd
    {| cohort := p; newly := []; contactLog := [] |}.

(** [Population::simulateOneDay()] *)
Definition simulateOneDay (rd : nat -> mt19937) (p : Population) : outcome Population :=
  match dayLoop rd p with
  | None => Undefined
  | Some s =>
      match infectAll (newly s) (cohort s) with
      | Returned p' => Returned (updateCounts (set_day (to_int (day p' + 1)) p'))
      | Thrown e p' => Thrown e p'
      | Undefined => Undefined
      end
  end.

(** ** Observers used in the statements *)

(** Number of members of [people] in the state recognised by [f]. *)
Definition tally (f : Person -> bool) (people : list Person) : Z :=
  Z.of_nat (length (List.filter f people)).

(** The state machine is at rest: infected exactly with a positive countdown,
    and the countdown is never negative. *)
Definition settled (p : Person) : Prop :=
  (isInfected p = true <-> 0 < infectionDays p) /\ 0 <= infectionDays p.

(** One of the three states of the model. *)
Definition known_status (p : Person) : bool :=
  isInfected p || isSusceptible p || isRecovered p.

(** Member [k] of [l] exists and is susceptible. *)
Definition susceptible_at (l : list Person) (k : nat) : Prop :=
  exists who, l !! k = Some who /\ isSusceptible who = true.

(** Member [k] of [l] exists and is infected. *)
Definition infected_at (l : list Person) (k : nat) : bool :=
  match l !! k with
  | Some who => isInfected who
  | None => false
  end.

(** The bound of the contact loop, and the number of contacts one
    transmitting member draws in a population of [n] members. *)
Definition contactBound (p : Population) : Z :=
  Z.min (contactsPerDay p) (Z.of_nat (length (population p)) - 1).

Definition contactsDrawn (contacts n : Z) : Z := Z.max 0 (Z.min contacts (n - 1)).

(** The person a successful infection produces. *)
Definition freshly_infected (duration : Z) : Person :=
  {| infectionDays := duration; current := "sick" |}.

(** Calls a client can make on a Population once constructed.  A call that
    throws leaves the object usable; the client may go on calling. *)
Inductive cohort_call : Type :=
| CallSetInfectionProbability (probability : Q)
| CallSetContactsPerDay (contacts : Z)
| CallSetInfectionDuration (days : Z)
| CallInfectRandomPerson (gen : mt19937)
| CallSimulateOneDay (rd : nat -> mt19937).

Definition cohort_step (c : cohort_call) (p : Population) : outcome Population :=
  match c with
  | CallSetInfectionProbability q => Returned (setInfectionProbability q p)
  | CallSetContactsPerDay n => Returned (setContactsPerDay n p)
  | CallSetInfectionDuration d => Returned (setInfectionDuration d p)
  | CallInfectRandomPerson gen => infectRandomPerson gen p
  | CallSimulateOneDay rd => simulateOneDay rd p
  end.

(** The object after a sequence of calls; [None] once a call had no defined
    behaviour. *)
Fixpoint cohort_run (calls : list cohort_call) (p : Population) : option Population :=
  match calls with
  | [] => Some p
  | c :: rest =>
      match cohort_step c p with
      | Returned p' => cohort_run rest p'
      | Thrown _ p' => cohort_run rest p'
      | Undefined => None
      end
  end.

Definition is_setter (c : cohort_call) : bool :=
  match c with
  | CallSetInfectionProbability _ | CallSetContactsPerDay _
  | CallSetInfectionDuration _ => true
  | CallInfectRandomPerson _ | CallSimulateOneDay _ => false
  end.

(** The object as the constructor builds it and the methods keep it: [size]
    is the length of the vector, an [int], and every member is in one of the
    three states. *)
Definition consistent (p : Population) : Prop :=
  Z.of_nat (length (population p)) = size p /\
  size p <= INT_MAX /\
  Forall (fun q => known_status q = true) (population p).

(** The cached counts add up to the population size. *)
Definition partitioned (p : Population) : Prop :=
  getSusceptibleCount p + getInfectedCount p + getRecoveredCount p
  = getPopulationSize p.

(** The cached counts are the numbers of members in each state. *)
Definition counts_exact (p : Population) : Prop :=
  getSusceptibleCount p = tally isSusceptible (population p) /\
  getInfectedCount p = tally isInfected (population p) /\
  getRecoveredCount p = tally isRecovered (population p).

(** What a client reads off the three count getters: [(S, I, R)]. *)
Definition observed (p : Population) : Z * Z * Z :=
  (getSusceptibleCount p, getInfectedCount p, getRecoveredCount p).

(** Two small populations used as concrete inputs: an infected member on its
    last day next to a susceptible one, and an infected member among three
    with six contacts per day configured. *)
Definition last_day_pair : Population :=
  mkPopulation 2 0 1 1 0 1 1 3 [mkPerson 1 "sick"; Person_new].

Definition trio_six_contacts : Population :=
  mkPopulation 3 0 1 2 0 1 6 3 [mkPerson 3 "sick"; Person_new; Person_new].

(** An engine that returns the given outputs, then zeros. *)
Definition engine_of (l : list Z) : mt19937 :=
  {| outputs := fun k => nth k l 0; position := 0 |}.

(** ** SIRSimulation.cpp

    [std::cout] is the list of the records printed, in order; the layout of
    a line ([setw], [setprecision]) and the percentages of the final summary,
    which are computed in [double], are not part of a record.  The text of an
    exception is not represented. *)

Module Config.

Record SimulationConfig : Type := mkSimulationConfig {
  populationSize : Z;
  initialInfections : Z;
  simulationDays : Z;
  infectionProbability : Q;
  contactsPerDay : Z;
  infectionDuration : Z
}.

(** [SimulationConfig::SimulationConfig()] *)
Definition default : SimulationConfig :=
  {| populationSize := 1000; initialInfections := 5; simulationDays := 90;
     infectionProbability := 1 # 2; contactsPerDay := 6; infectionDuration := 5 |}.

(** [SimulationConfig::isValid()] *)
Definition isValid (c : SimulationConfig) : bool :=
  (0 <? populationSize c) &&
  (0 <? initialInfections c) &&
  (initialInfections c <=? populationSize c) &&
  (0 <? simulationDays c) &&
  Qle_bool 0 (infectionProbability c) &&
  Qle_bool (infectionProbability c) 1 &&
  (0 <=? contactsPerDay c) &&
  (0 <? infectionDuration c).

(** [SimulationConfig::SimulationConfig(int, int, int, float, int, int)] *)
Definition make (popSize initInfections simDays : Z) (infProb : Q)
    (contacts duration : Z) : exception + SimulationConfig :=
  let c := mkSimulationConfig popSize initInfections simDays infProb contacts duration in
  if negb (isValid c) then inl invalid_argument else inr c.

End Config.

Inductive output : Type :=
| Header (c : Config.SimulationConfig)
| DailyStats (day susceptible infected recovered : Z)
| EpidemicEnded (day : Z)
| FinalStatistics (susceptible recovered affected : Z).

Module Simulation.

Record SIRSimulation : Type := mkSIRSimulation {
  config : Config.SimulationConfig;
  population : Population
}.

(** [SIRSimulation::SIRSimulation(const SimulationConfig&)]: the members are
    initialised first, so the population is built before the validation. *)
Definition new (simConfig : Config.SimulationConfig) : exception + SIRSimulation :=
  match Population_new (Config.populationSize simConfig) with
  | inl e => inl e
  | inr members =>
      if negb (Config.isValid simConfig) then inl invalid_argument
      else inr {| config := simConfig;
                  population :=
                    setInfectionDuration (Config.infectionDuration simConfig)
                      (setContactsPerDay (Config.contactsPerDay simConfig)
                         (setInfectionProbability
                            (Config.infectionProbability simConfig) members)) |}
  end.

Definition getPopulation (sim : SIRSimulation) : Population := population sim.

(** The loop of [SIRSimulation::initializeSimulation]; [seeds i] is the
    engine of the [i]-th call of [infectRandomPerson]. *)
Fixpoint seedLoop (fuel : nat) (i : Z) (seeds : Z -> mt19937)
    (sim : SIRSimulation) : outcome SIRSimulation :=
  if i <? Config.initialInfections (config sim) then
    match fuel with
    | O => Undefined
    | S fuel' =>
        match infectRandomPerson (seeds i) (population sim) with
        | Returned members =>
            seedLoop fuel' (to_int (i + 1)) seeds
              {| config := config sim; population := members |}
        | Thrown e members =>
            Thrown e {| config := config sim; population := members |}
        | Undefined => Undefined
        end
    end
  else Returned sim.

(** [SIRSimulation::initializeSimulation()] *)
Definition initializeSimulation (seeds : Z -> mt19937) (sim : SIRSimulation)
    : outcome SIRSimulation :=
  seedLoop (Z.to_nat (Config.initialInfections (config sim))) 0 seeds sim.

(** [SIRSimulation::outputDailyStats(int day)] *)
Definition outputDailyStats (day : Z) (sim : SIRSimulation) (cout : list output)
    : list output :=
  cout ++ [DailyStats day (getSusceptibleCount (population sim))
             (getInfectedCount (population sim))
             (getRecoveredCount (population sim))].

(** The day loop of [SIRSimulation::runSimulation]; [rd day j] is the engine
    of member [j] on that day. *)
Fixpoint simulationLoop (fuel : nat) (day : Z) (rd : Z -> nat -> mt19937)
    (sim : SIRSimulation) (cout : list output)
    : outcome (SIRSimulation * list output) :=
  if day <=? Config.simulationDays (config sim) then
    match fuel with
    | O => Undefined
    | S fuel' =>
        match simulateOneDay (rd day) (population sim) with
        | Returned members =>
            let sim' := {| config := config sim; population := members |} in
            let cout' := outputDailyStats day sim' cout in
            if getInfectedCount (population sim') =? 0
            then Returned (sim', cout' ++ [EpidemicEnded day])
            else simulationLoop fuel' (to_int (day + 1)) rd sim' cout'
        | Thrown e members =>
            Thrown e ({| config := config sim; population := members |}, cout)
        | Undefined => Undefined
        end
    end
  else Returned (sim, cout).

(** [SIRSimulation::runSimulation()] *)
Definition runSimulation (seeds : Z -> mt19937) (rd : Z -> nat -> mt19937)
    (sim : SIRSimulation) : outcome (SIRSimulation * list output) :=
  let cout := [Header (config sim)] in
  match initializeSimulation seeds sim with
  | Returned sim1 =>
      let cout1 := outputDailyStats 0 sim1 cout in
      match simulationLoop (Z.to_nat (Config.simulationDays (config sim1))) 1
              rd sim1 cout1 with
      | Returned (sim2, cout2) =>
          Returned
            (sim2,
             cout2 ++ [FinalStatistics
                         (getSusceptibleCount (population sim2))
                         (getRecoveredCount (population sim2))
                         (to_int (Config.populationSize (config sim2)
                                  - getSusceptibleCount (population sim2)))])
      | Thrown e st => Thrown e st
      | Undefined => Undefined
      end
  | Thrown e sim1 => Thrown e (sim1, cout)
  | Undefined => Undefined
  end.

End Simulation.

(** [main()] of SIRSimulation.cpp: the exit status and what was printed by
    [runSimulation]; [None] when the run has no defined behaviour. *)
Definition main (seeds : Z -> mt19937) (rd : Z -> nat -> mt19937)
    : option (Z * list output) :=
  match Simulation.new Config.default with
  | inl _ => Some (1, [])
  | inr simulation =>
      match Simulation.runSimulation seeds rd simulation with
      | Returned (_, cout) => Some (0, cout)
      | Thrown _ (_, cout) => Some (1, cout)
      | Undefined => None
      end
  end.

(** The daily reports a run may print from day [d] on, in a population of
    [N] with day limit [limit]: a report per day whose three numbers add up
    to [N]; the run goes on to the next day only after a report with
    infected members, and a report without any is followed by the notice
    that the epidemic ended. *)
Inductive daily_trace (N limit : Z) : Z -> list output -> Prop :=
| trace_limit d :
    limit < d -> daily_trace N limit d []
| trace_ended d s r :
    d <= limit -> s + r = N -> 0 <= s -> 0 <= r ->
    daily_trace N limit d [DailyStats d s 0 r; EpidemicEnded d]
| trace_next d s i r rest :
    d <= limit -> s + i + r = N -> 0 <= s -> 0 < i -> 0 <= r ->
    daily_trace N limit (d + 1) rest ->
    daily_trace N limit d (DailyStats d s i r :: rest).

(** ** Simulation.cpp, the earlier single-file implementation

    Its [Person] has the same two fields as the one of Person.cpp and is
    represented by the same record.  [Pop] holds pointers to separately
    allocated persons; a pointer is again the index of its element.  The
    [float] value of [static_cast<float>(gen()) / gen.max()] is a parameter
    [ratio] of the model, a function of the 32-bit engine output.  A method
    gives [None] where C++ gives the call no meaning. *)

Module Legacy.

(** [Person::currentState()] *)
Definition personCurrentState (p : Person) : Person :=
  if String.eqb (current p) "sick" then
    let days := to_int (infectionDays p - 1) in
    {| infectionDays := days;
       current := if days =? 0 then "recovered" else current p |}
  else p.

(** [Person::infect(int duration)] *)
Definition infect (duration : Z) (p : Person) : Person :=
  if String.eqb (current p) "susceptible"
  then {| infectionDays := duration; current := "sick" |}
  else p.

Definition isStable (p : Person) : bool := String.eqb (current p) "recovered".

Definition person_step (p : Person) (c : person_call) : Person :=
  match c with
  | CallInfect d => infect d p
  | CallUpdateState => personCurrentState p
  end.

Definition person_run (calls : list person_call) (p : Person) : Person :=
  fold_left person_step calls p.

Record Population : Type := mkPopulation {
  day : Z;
  size : Z;
  countInfected : Z;
  countSusceptible : Z;
  countRecoverred : Z;
  probability : Q;
  contacts : Z;
  infectionDays : Z;
  Pop : list Person
}.

Definition set_Pop (l : list Person) (p : Population) : Population :=
  mkPopulation (day p) (size p) (countInfected p) (countSusceptible p)
    (countRecoverred p) (probability p) (contacts p) (infectionDays p) l.

(** [Population::Population(int sizeofPopulation)] *)
Definition new (sizeofPopulation : Z) : Population :=
  {| day := 0; size := sizeofPopulation; countInfected := 0;
     countSusceptible := sizeofPopulation; countRecoverred := 0;
     probability := 0%Q; contacts := 0; infectionDays := 0;
     Pop := replicate (Z.to_nat sizeofPopulation) Person_new |}.

Definition contractProbability (q : Q) (p : Population) : Population :=
  mkPopulation (day p) (size p) (countInfected p) (countSusceptible p)
    (countRecoverred p) q (contacts p) (infectionDays p) (Pop p).

Definition setContactCount (n : Z) (p : Population) : Population :=
  mkPopulation (day p) (size p) (countInfected p) (countSusceptible p)
    (countRecoverred p) (probability p) n (infectionDays p) (Pop p).

Definition setSickDays (d : Z) (p : Population) : Population :=
  mkPopulation (day p) (size p) (countInfected p) (countSusceptible p)
    (countRecoverred p) (probability p) (contacts p) d (Pop p).

(** [Population::thePersonToinfect(Person* person)] *)
Definition thePersonToinfect (person : nat) (p : Population) : option Population :=
  match Pop p !! person with
  | None => None
  | Some who => Some (set_Pop (<[person := infect (infectionDays p) who]> (Pop p)) p)
  end.

(** [Population::infectRandomPersons()] *)
Definition infectRandomPersons (gen : mt19937) (p : Population) : option Population :=
  let p1 := mkPopulation (day p) (size p) 1 (countSusceptible p)
              (countRecoverred p) (probability p) (contacts p) (infectionDays p) (Pop p) in
  let (index, _) := uniform_int_distribution 0 (to_int (size p1 - 1)) gen in
  thePersonToinfect (Z.to_nat index) p1.

Section Ratio.

Variable ratio : Z -> Q.

(** The loop of [Population::contract]. *)
Fixpoint contractLoop (fuel : nat) (i : Z) (p : Population) (gen : mt19937)
    (newly_infected : list nat) : option (list nat) :=
  let n := length (Pop p) in
  if i <? Z.min (contacts p) (to_int (to_int (Z.of_nat n) - 1)) then
    match fuel with
    | O => None
    | S fuel' =>
        let (g, gen1) := engine_next gen in
        if Qle_bool (ratio (g mod 2 ^ 32)) (probability p) then
          let (index, gen2) :=
            uniform_int_distribution 0 (to_int (Z.of_nat n - 1)) gen1 in
          match Pop p !! Z.to_nat index with
          | None => None
          | Some _ =>
              contractLoop fuel' (to_int (i + 1)) p gen2
                (newly_infected ++ [Z.to_nat index])
          end
        else contractLoop fuel' (to_int (i + 1)) p gen1 newly_infected
    end
  else Some newly_infected.

(** [Population::contract(std::vector<Person*>& newly_infected)] *)
Definition contract (gen : mt19937) (p : Population) (newly_infected : list nat)
    : option (list nat) :=
  contractLoop (length (Pop p)) 0 p gen newly_infected.

(** What the first loop of [Population::currentState] has built: the object,
    the three local counters and [newly_infected]. *)
Record loopState : Type := mkLoopState {
  object : Population;
  theinfectcount : Z;
  theSusceptibleCount : Z;
  theRecoveredCount : Z;
  newly_infected : list nat
}.

(** First loop of [Population::currentState], from position [i] on. *)
Fixpoint stateLoop (todo : nat) (i : nat) (rd : nat -> mt19937) (s : loopState)
    : option loopState :=
  match todo with
  | O => Some s
  | S todo' =>
      match Pop (object s) !! i with
      | None => None
      | Some person =>
          let counted :=
            if String.eqb (getStatus person) "sick" then
              match contract (rd i) (object s) (newly_infected s) with
              | None => None
              | Some newly =>
                  Some (to_int (theinfectcount s + 1), theSusceptibleCount s,
                        theRecoveredCount s, newly)
              end
            else if String.eqb (getStatus person) "susceptible" then
              Some (theinfectcount s, to_int (theSusceptibleCount s + 1),
                    theRecoveredCount s, newly_infected s)
            else if String.eqb (getStatus person) "recovered" then
              Some (theinfectcount s, theSusceptibleCount s,
                    to_int (theRecoveredCount s + 1), newly_infected s)
            else
              Some (theinfectcount s, theSusceptibleCount s,
                    theRecoveredCount s, newly_infected s) in
          match counted with
          | None => None
          | Some (ci, cs, cr, newly) =>
              stateLoop todo' (S i) rd
                {| object := set_Pop (<[i := personCurrentState person]>
                                        (Pop (object s))) (object s);
                   theinfectcount := ci;
                   theSusceptibleCount := cs;
                   theRecoveredCount := cr;
                   newly_infected := newly |}
          end
      end
  end.

(** Second loop of [Population::currentState]. *)
Fixpoint infectLoop (newly : list nat) (p : Population) : option Population :=
  match newly with
  | [] => Some p
  | person :: rest =>
      match thePersonToinfect person p with
      | None => None
      | Some p' => infectLoop rest p'
      end
  end.

(** [Population::currentState()] *)
Definition currentState (rd : nat -> mt19937) (p : Population) : option Population :=
  match stateLoop (length (Pop p)) 0 rd
          {| object := p; theinfectcount := 0; theSusceptibleCount := 0;
             theRecoveredCount := 0; newly_infected := [] |} with
  | None => None
  | Some s =>
      let p1 := object s in
      infectLoop (newly_infected s)
        (mkPopulation (to_int (day p1 + 1)) (size p1) (theinfectcount s)
           (theSusceptibleCount s) (theRecoveredCount s) (probability p1)
           (contacts p1) (infectionDays p1) (Pop p1))
  end.

End Ratio.

End Legacy.

(** The seeding loop of [main] in Simulation.cpp, one engine per call. *)
Fixpoint legacy_seed (gens : list mt19937) (p : Legacy.Population)
    : option Legacy.Population :=
  match gens with
  | [] => Some p
  | gen :: rest =>
      match Legacy.infectRandomPersons gen p with
      | None => None
      | Some p' => legacy_seed rest p'
      end
  end.

(** Every [infect] call of a sequence passes a positive [int]. *)
Definition positive_durations (calls : list person_call) : Prop :=
  Forall (fun c => match c with
                   | CallInfect d => 0 < d <= INT_MAX
                   | CallUpdateState => True
                   end) calls.

(** The simulation object between construction and the end of a run: the
    configuration is valid and copied into a well-formed population whose
    cached counts are non-negative and add up to the population size. *)
Definition running (cfg : Config.SimulationConfig) (sim : Simulation.SIRSimulation)
    : Prop :=
  Simulation.config sim = cfg /\
  Config.isValid cfg = true /\
  consistent (Simulation.population sim) /\
  partitioned (Simulation.population sim) /\
  size (Simulation.population sim) = Config.populationSize cfg /\
  infectionDuration (Simulation.population sim) = Config.infectionDuration cfg /\
  0 <= getSusceptibleCount (Simulation.population sim) /\
  0 <= getInfectedCount (Simulation.population sim) /\
  0 <= getRecoveredCount (Simulation.population sim).

(** The simulation object while the initial infections are being seeded,
    [i] calls of [infectRandomPerson] having been made. *)
Definition seeding (cfg : Config.SimulationConfig) (i : Z)
    (sim : Simulation.SIRSimulation) : Prop :=
  running cfg sim /\
  observed (Simulation.population sim) = (Config.populationSize cfg, 0, 0) /\
  Forall (fun x => x = Person_new \/
                   x = freshly_infected (Config.infectionDuration cfg))
         (population (Simulation.population sim)) /\
  tally isInfected (population (Simulation.population sim)) <= i /\
  (1 <= i -> 1 <= tally isInfected (population (Simulation.population sim))).

(** ** Further observers *)

(** Member [k] of [l] exists and is susceptible, as a test. *)
Definition susceptibleb (l : list Person) (k : nat) : bool :=
  match l !! k with
  | Some who => isSusceptible who
  | None => false
  end.

(** All contacts drawn during one first loop of [simulateOneDay], in order. *)
Definition contactsOfDay (s : dayState) : list nat :=
  concat (map snd (contactLog s)).

(** The numbers of members in each state: [(S, I, R)]. *)
Definition census (l : list Person) : Z * Z * Z :=
  (tally isSusceptible l, tally isInfected l, tally isRecovered l).

(** ** Observers of the contact draws *)



(** * The model on small inputs *)

Example countdown_of_three :
  map (fun calls => person_run calls Person_new)
    [[CallInfect 3];
     [CallInfect 3; CallUpdateState];
     [CallInfect 3; CallUpdateState; CallUpdateState];
     [CallInfect 3; CallUpdateState; CallUpdateState; CallUpdateState]]
  = [mkPerson 3 "sick"; mkPerson 2 "sick"; mkPerson 1 "sick"; mkPerson 0 "recovered"].
Proof. reflexivity. Qed.

Example negative_size_throws : Population_new (-1) = inl length_error.
Proof. reflexivity. Qed.

Example seeding_an_empty_population : forall p,
  Population_new 0 = inr p -> infectRandomPerson (engine_of [0]) p = Undefined.
Proof. intros p [= <-]. reflexivity. Qed.

Example sole_member_recovers_after_five_days :
  exists p0 p,
    Population_new 1 = inr p0 /\
    cohort_run (CallSetInfectionDuration 5 :: CallSetContactsPerDay 4
                :: CallInfectRandomPerson (engine_of [0])
                :: repeat (CallSimulateOneDay (fun _ => engine_of [])) 5) p0 = Some p /\
    population p = [mkPerson 0 "recovered"] /\ observed p = (0, 0, 1) /\
    getCurrentDay p = 5.
Proof.
  do 2 eexists. split; [reflexivity|].
  split; [vm_compute; reflexivity|]. repeat split.
Qed.

Example last_day_pair_after_one_day :
  simulateOneDay (fun _ => engine_of [1; 0]) last_day_pair
  = Returned (mkPopulation 2 1 1 0 1 1 1 3
                [mkPerson 0 "recovered"; mkPerson 3 "sick"]).
Proof. vm_compute. reflexivity. Qed.

(** * Properties of Person *)

Section ToInt.

Lemma to_int_small (z : Z) : - 2 ^ 31 <= z <= INT_MAX -> to_int z = z.
Proof.
  unfold to_int, INT_MAX. intros Hz.
  rewrite Z.mod_small by lia. lia.
Qed.

Lemma to_int_range (z : Z) : - 2 ^ 31 <= to_int z <= INT_MAX.
Proof.
  unfold to_int, INT_MAX.
  pose proof (Z.mod_pos_bound (z + 2 ^ 31) (2 ^ 32) ltac:(lia)). lia.
Qed.

End ToInt.

Section Status.

Lemma sick_not_susceptible (p : Person) :
  isInfected p = true -> isSusceptible p = false.
Proof.
  unfold isInfected, isSusceptible. intros H.
  apply String.eqb_eq in H. rewrite H. reflexivity.
Qed.

Lemma recovered_not_susceptible (p : Person) :
  isRecovered p = true -> isSusceptible p = false.
Proof.
  unfold isRecovered, isSusceptible. intros H.
  apply String.eqb_eq in H. rewrite H. reflexivity.
Qed.

Lemma recovered_not_sick (p : Person) :
  isRecovered p = true -> isInfected p = false.
Proof.
  unfold isRecovered, isInfected. intros H.
  apply String.eqb_eq in H. rewrite H. reflexivity.
Qed.

Lemma susceptible_not_sick (p : Person) :
  isSusceptible p = true -> isInfected p = false.
Proof.
  unfold isInfected, isSusceptible. intros H.
  apply String.eqb_eq in H. rewrite H. reflexivity.
Qed.

Lemma updateState_not_sick (p : Person) :
  isInfected p = false -> updateState p = p.
Proof. unfold updateState, isInfected. intros ->. reflexivity. Qed.

Lemma updateState_susceptible (p : Person) :
  isSusceptible (updateState p) = isSusceptible p.
Proof.
  unfold updateState. destruct (String.eqb_spec (current p) "sick") as [E|E]; [|reflexivity].
  unfold isSusceptible. destruct (_ <=? 0); simpl; rewrite E; reflexivity.
Qed.

Lemma updateState_known (p : Person) :
  known_status p = true -> known_status (updateState p) = true.
Proof.
  unfold updateState. destruct (String.eqb_spec (current p) "sick") as [E|E]; [|auto].
  intros _. destruct (_ <=? 0); [reflexivity|].
  unfold known_status, isInfected. simpl. rewrite E. reflexivity.
Qed.

Lemma infect_susceptible (d : Z) (p : Person) :
  0 < d -> isSusceptible p = true -> infect d p = Returned (freshly_infected d).
Proof.
  unfold infect, isSusceptible. intros Hd ->.
  destruct (Z.leb_spec d 0); [lia | reflexivity].
Qed.

Lemma infect_not_susceptible (d : Z) (p : Person) :
  0 < d -> isSusceptible p = false -> infect d p = Returned p.
Proof.
  unfold infect, isSusceptible. intros Hd ->.
  destruct (Z.leb_spec d 0); [lia | reflexivity].
Qed.

Lemma infect_invalid (d : Z) (p : Person) :
  d <= 0 -> infect d p = Thrown invalid_argument p.
Proof.
  unfold infect. intros Hd. destruct (Z.leb_spec d 0); [reflexivity | lia].
Qed.

Lemma settled_new : settled Person_new.
Proof. unfold settled. simpl. split; [split; [discriminate | lia] | lia]. Qed.

Lemma settled_updateState (p : Person) : settled p -> settled (updateState p).
Proof.
  unfold updateState. destruct (String.eqb_spec (current p) "sick") as [E|E]; [|auto].
  intros _. destruct (Z.leb_spec (to_int (infectionDays p - 1)) 0) as [Hd|Hd].
  - unfold settled. simpl. split; [split; [discriminate | lia] | lia].
  - unfold settled, isInfected. simpl. rewrite E. simpl.
    split; [split; [lia | reflexivity] | lia].
Qed.

Lemma settled_infect (d : Z) (p : Person) :
  settled p -> settled (after_outcome p (infect d p)).
Proof.
  intros Hp. unfold infect. destruct (Z.leb_spec d 0); [exact Hp|].
  destruct (String.eqb (current p) "susceptible"); [|exact Hp].
  unfold settled, isInfected. simpl. split; [split; [lia | reflexivity] | lia].
Qed.

Lemma settled_run (calls : list person_call) :
  forall p, settled p -> settled (person_run calls p).
Proof.
  unfold person_run. induction calls as [|c calls IH]; intros p Hp; [exact Hp|].
  simpl. apply IH. destruct c; simpl; auto using settled_infect, settled_updateState.
Qed.

End Status.

(** C6. [infect(duration)] with [duration <= 0] throws [invalid_argument]
    whatever the person's state, leaving state and countdown as they were
    (the check comes before the state test); with [duration > 0] it returns. *)
Theorem infect_validates_duration_first (p : Person) (duration : Z) :
  (duration <= 0 -> infect duration p = Thrown invalid_argument p) /\
  (0 < duration -> exists p', infect duration p = Returned p').
Proof.
  split.
  - apply infect_invalid.
  - intros Hd. destruct (isSusceptible p) eqn:E.
    + exists (freshly_infected duration). now apply infect_susceptible.
    + exists p. now apply infect_not_susceptible.
Qed.

Lemma infect_validates_duration_first_witness :
  infect (-1) (mkPerson 2 "sick") = Thrown invalid_argument (mkPerson 2 "sick") /\
  exists p', infect 5 (mkPerson 2 "sick") = Returned p'.
Proof.
  destruct (infect_validates_duration_first (mkPerson 2 "sick") (-1)) as [H _].
  destruct (infect_validates_duration_first (mkPerson 2 "sick") 5) as [_ H'].
  split; [apply H; lia | apply H'; lia].
Defined.

(** C8. After construction and after every further call of [infect] or
    [updateState], a person is infected exactly when its countdown is
    positive and the countdown is not negative; an infected person whose
    countdown is at its last day leaves [updateState] recovered with the
    countdown at 0. *)
Theorem person_settled_after_every_call (calls : list person_call) (p : Person) :
  p = person_run calls Person_new ->
  (isInfected p = true <-> 0 < infectionDays p) /\
  0 <= infectionDays p /\
  (isInfected p = true -> infectionDays p = 1 ->
   updateState p = {| infectionDays := 0; current := "recovered" |}).
Proof.
  intros ->. destruct (settled_run calls Person_new settled_new) as [H1 H2].
  split; [exact H1 | split; [exact H2 |]].
  intros Hs Hd. unfold updateState. unfold isInfected in Hs. rewrite Hs, Hd.
  reflexivity.
Qed.

Lemma person_settled_after_every_call_witness :
  updateState (person_run [CallInfect 2; CallUpdateState] Person_new)
  = {| infectionDays := 0; current := "recovered" |}.
Proof.
  destruct (person_settled_after_every_call [CallInfect 2; CallUpdateState] _ eq_refl)
    as (_ & _ & H).
  apply H; reflexivity.
Defined.

(** C9. [infect(d)] with [d > 0] on an infected or recovered person changes
    neither state nor countdown, and no sequence of [updateState] and
    [infect] calls changes a recovered person. *)
Theorem recovered_is_terminal :
  (forall p d, isInfected p = true \/ isRecovered p = true -> 0 < d ->
               infect d p = Returned p) /\
  (forall calls p, isRecovered p = true -> person_run calls p = p).
Proof.
  split.
  - intros p d Hs Hd. apply infect_not_susceptible; [exact Hd|].
    destruct Hs; auto using sick_not_susceptible, recovered_not_susceptible.
  - unfold person_run. induction calls as [|c calls IH]; intros p Hr; [reflexivity|].
    simpl. assert (person_step p c = p) as ->; [|now apply IH].
    destruct c as [d|]; simpl.
    + destruct (Z.leb_spec d 0).
      * now rewrite infect_invalid.
      * now rewrite infect_not_susceptible by auto using recovered_not_susceptible.
    + apply updateState_not_sick. now apply recovered_not_sick.
Qed.

Lemma recovered_is_terminal_witness :
  infect 4 (mkPerson 2 "sick") = Returned (mkPerson 2 "sick") /\
  person_run [CallInfect 4; CallUpdateState; CallInfect 0] (mkPerson 0 "recovered")
  = mkPerson 0 "recovered".
Proof.
  destruct recovered_is_terminal as [H1 H2].
  split; [apply H1; [left; reflexivity | lia] | apply H2; reflexivity].
Defined.

(** * Properties of Population *)

Section Distributions.

Lemma uniform_int_in_range (a b : Z) (gen : mt19937) :
  a <= b -> a <= fst (uniform_int_distribution a b gen) <= b.
Proof.
  intros Hab. unfold uniform_int_distribution. cbn.
  pose proof (Z.mod_pos_bound (outputs gen (position gen)) (b - a + 1) ltac:(lia)).
  lia.
Qed.

(** Every value of the interval is one the distribution can return. *)
Lemma uniform_int_attains (a b v : Z) :
  a <= v <= b -> fst (uniform_int_distribution a b (engine_of [v - a])) = v.
Proof.
  intros Hv. unfold uniform_int_distribution. cbn.
  rewrite Z.mod_small by lia. lia.
Qed.

End Distributions.

Section Transmission.

Variable p : Population.
Hypothesis people : 1 <= Z.of_nat (length (population p)) <= INT_MAX.

Lemma contactLoop_spec (fuel : nat) :
  forall i gen newlyInfected drawn,
    0 <= i -> contactBound p - i <= Z.of_nat fuel ->
    exists ns ds,
      contactLoop fuel i p gen newlyInfected drawn
        = Some (newlyInfected ++ ns, drawn ++ ds) /\
      Z.of_nat (length ds) = Z.max 0 (contactBound p - i) /\
      Forall (fun k => (k < length (population p))%nat) ds /\
      Forall (susceptible_at (population p)) ns.
Proof.
  unfold contactBound. set (n := Z.of_nat (length (population p))) in *.
  set (bound := Z.min (contactsPerDay p) (n - 1)).
  assert (Hn : to_int n = n) by (apply to_int_small; unfold INT_MAX in *; lia).
  assert (Hn1 : to_int (n - 1) = n - 1)
    by (apply to_int_small; unfold INT_MAX in *; lia).
  assert (Hstop : forall i gen newlyInfected drawn fuel',
    bound - i <= 0 ->
    exists ns ds,
      contactLoop fuel' i p gen newlyInfected drawn
        = Some (newlyInfected ++ ns, drawn ++ ds) /\
      Z.of_nat (length ds) = Z.max 0 (bound - i) /\
      Forall (fun k => (k < length (population p))%nat) ds /\
      Forall (susceptible_at (population p)) ns).
  { intros i gen nI dr fuel' Hb. exists [], []. rewrite !app_nil_r.
    split; [|split; [simpl; lia | split; constructor]].
    destruct fuel'; simpl; fold n; rewrite Hn, Hn1;
      destruct (Z.ltb_spec i (contactsPerDay p));
      destruct (Z.ltb_spec i (n - 1)); simpl; try reflexivity;
      unfold bound in Hb; lia. }
  induction fuel as [|fuel IH]; intros i gen nI dr Hi Hfuel.
  - apply Hstop. simpl in Hfuel. lia.
  - destruct (Z.le_gt_cases (bound - i) 0) as [Hb|Hb]; [now apply Hstop|].
    assert (Hi1 : to_int (i + 1) = i + 1)
      by (apply to_int_small; unfold bound, INT_MAX in *; lia).
    pose proof (uniform_int_in_range 0 (n - 1) gen ltac:(lia)) as Hrange.
    cbn [contactLoop]. fold n. rewrite Hn, Hn1, Hi1.
    destruct (Z.ltb_spec i (contactsPerDay p)); [|unfold bound in Hb; lia].
    destruct (Z.ltb_spec i (n - 1)); [|unfold bound in Hb; lia].
    cbn [andb].
    destruct (uniform_int_distribution 0 (n - 1) gen) as [contactIndex gen1].
    simpl in Hrange.
    assert (Hlt : (Z.to_nat contactIndex < length (population p))%nat)
      by (unfold n in Hrange; lia).
    destruct (lookup_lt_is_Some_2 _ _ Hlt) as [who Hwho]. rewrite Hwho.
    assert (Hlen : forall ds' : list nat,
      Z.of_nat (length ds') = Z.max 0 (bound - (i + 1)) ->
      Z.of_nat (length (Z.to_nat contactIndex :: ds')) = Z.max 0 (bound - i))
      by (intros ds' E; simpl length; lia).
    destruct (isSusceptible who) eqn:Hs.
    + destruct (uniform_real_distribution gen1) as [u gen2].
      destruct (Qle_bool u (infectionProbability p)).
      * destruct (IH (i + 1) gen2 (nI ++ [Z.to_nat contactIndex])
                    (dr ++ [Z.to_nat contactIndex]) ltac:(lia) ltac:(lia))
          as (ns & ds & E & L & D & N).
        exists (Z.to_nat contactIndex :: ns), (Z.to_nat contactIndex :: ds).
        rewrite E, <- !app_assoc. simpl.
        split; [reflexivity | split; [now apply Hlen | split]].
        -- now constructor.
        -- constructor; [exists who; auto | exact N].
      * destruct (IH (i + 1) gen2 nI (dr ++ [Z.to_nat contactIndex])
                    ltac:(lia) ltac:(lia)) as (ns & ds & E & L & D & N).
        exists ns, (Z.to_nat contactIndex :: ds).
        rewrite E, <- !app_assoc. simpl.
        split; [reflexivity | split; [now apply Hlen | split]]; [|exact N].
        now constructor.
    + destruct (IH (i + 1) gen1 nI (dr ++ [Z.to_nat contactIndex])
                  ltac:(lia) ltac:(lia)) as (ns & ds & E & L & D & N).
      exists ns, (Z.to_nat contactIndex :: ds).
      rewrite E, <- !app_assoc. simpl.
      split; [reflexivity | split; [now apply Hlen | split]]; [|exact N].
      now constructor.
Qed.

Lemma simulateTransmission_spec (gen : mt19937) (newlyInfected : list nat) :
  exists ns ds,
    simulateTransmission gen p newlyInfected = Some (newlyInfected ++ ns, ds) /\
    Z.of_nat (length ds) = Z.max 0 (contactBound p) /\
    Forall (fun k => (k < length (population p))%nat) ds /\
    Forall (susceptible_at (population p)) ns.
Proof.
  unfold simulateTransmission.
  destruct (contactLoop_spec (length (population p)) 0 gen newlyInfected []
              ltac:(lia) ltac:(unfold contactBound; lia))
    as (ns & ds & E & L & D & N).
  exists ns, ds. rewrite E. simpl. rewrite Z.sub_0_r in L. auto.
Qed.

End Transmission.

Section DayLoop.

Variable rd : nat -> mt19937.

Lemma set_population_same (p : Population) : set_population (population p) p = p.
Proof. destruct p; reflexivity. Qed.

Lemma susceptible_at_updated (l : list Person) (j k : nat) (person : Person) :
  l !! j = Some person ->
  susceptible_at (<[j := updateState person]> l) k -> susceptible_at l k.
Proof.
  intros Hj (who & Hk & Hs). destruct (decide (j = k)) as [->|Hne].
  - rewrite list_lookup_insert_eq in Hk by (eapply lookup_lt_Some; eauto).
    injection Hk as <-. exists person. split; [exact Hj|].
    now rewrite <- updateState_susceptible.
  - rewrite list_lookup_insert_ne in Hk by exact Hne. now exists who.
Qed.

Lemma infected_at_later (l : list Person) (j : nat) (x : Person) (todo : nat) :
  List.filter (infected_at (<[j := x]> l)) (seq (S j) todo)
  = List.filter (infected_at l) (seq (S j) todo).
Proof.
  apply filter_ext_in. intros k Hk. apply in_seq in Hk.
  unfold infected_at. rewrite list_lookup_insert_ne by lia. reflexivity.
Qed.

Lemma updated_prefix (l : list Person) (j : nat) (person : Person) :
  l !! j = Some person ->
  take (S j) (<[j := updateState person]> l)
    ++ map updateState (drop (S j) (<[j := updateState person]> l))
  = take j l ++ map updateState (drop j l).
Proof.
  intros Hj. assert (Hlt : (j < length l)%nat) by (eapply lookup_lt_Some; eauto).
  rewrite (take_S_r _ _ (updateState person))
    by (now apply list_lookup_insert_eq).
  rewrite take_insert_ge by lia. rewrite drop_insert_lt by lia.
  rewrite (drop_S l person j Hj). simpl. now rewrite <- app_assoc.
Qed.

Lemma personLoop_spec (todo : nat) :
  forall j s,
    (j + todo = length (population (cohort s)))%nat ->
    Z.of_nat (length (population (cohort s))) <= INT_MAX ->
    exists ns es,
      personLoop todo j rd s
        = Some {| cohort := set_population
                              (take j (population (cohort s))
                               ++ map updateState (drop j (population (cohort s))))
                              (cohort s);
                  newly := newly s ++ ns;
                  contactLog := contactLog s ++ es |} /\
      Forall (susceptible_at (population (cohort s))) ns /\
      map fst es = List.filter (infected_at (population (cohort s))) (seq j todo) /\
      Forall (fun e =>
                Z.of_nat (length (snd e))
                = contactsDrawn (contactsPerDay (cohort s))
                    (Z.of_nat (length (population (cohort s)))) /\
                Forall (fun k => (k < length (population (cohort s)))%nat) (snd e))
             es.
Proof.
  induction todo as [|todo IH]; intros j s Hlen Hmax.
  - exists [], []. rewrite !app_nil_r. simpl.
    rewrite take_ge, drop_ge by lia. simpl. rewrite app_nil_r.
    rewrite set_population_same. destruct s; auto.
  - set (P := population (cohort s)) in *.
    assert (Hlt : (j < length P)%nat) by lia.
    destruct (lookup_lt_is_Some_2 _ _ Hlt) as [person Hperson].
    cbn [personLoop]. fold P. rewrite Hperson.
    assert (Htrans : exists ns1 es1,
      (if isInfected person then
         match simulateTransmission (rd j) (cohort s) (newly s) with
         | None => None
         | Some (newlyInfected, drawn) =>
             Some (newlyInfected, contactLog s ++ [(j, drawn)])
         end
       else Some (newly s, contactLog s))
      = Some (newly s ++ ns1, contactLog s ++ es1) /\
      Forall (susceptible_at P) ns1 /\
      map fst es1 = (if isInfected person then [j] else []) /\
      Forall (fun e =>
                Z.of_nat (length (snd e))
                = contactsDrawn (contactsPerDay (cohort s)) (Z.of_nat (length P)) /\
                Forall (fun k => (k < length P)%nat) (snd e)) es1).
    { destruct (isInfected person).
      - destruct (simulateTransmission_spec (cohort s) ltac:(fold P; lia)
                    (rd j) (newly s)) as (ns1 & ds & E & L & D & N).
        exists ns1, [(j, ds)]. rewrite E.
        split; [reflexivity | split; [exact N | split; [reflexivity|]]].
        constructor; [|constructor]. simpl. split; [exact L | exact D].
      - exists [], []. rewrite !app_nil_r.
        split; [reflexivity | split; [constructor | split; [reflexivity | constructor]]]. }
    destruct Htrans as (ns1 & es1 & -> & Hns1 & Hes1 & Hds1).
    destruct (IH (S j)
                {| cohort := set_population (<[j := updateState person]> P) (cohort s);
                   newly := newly s ++ ns1;
                   contactLog := contactLog s ++ es1 |})
      as (ns2 & es2 & E & Hns2 & Hes2 & Hds2).
    { simpl. rewrite length_insert. lia. }
    { simpl. rewrite length_insert. exact Hmax. }
    simpl in E, Hns2, Hes2, Hds2. rewrite length_insert in Hds2.
    exists (ns1 ++ ns2), (es1 ++ es2). rewrite E.
    rewrite (updated_prefix P j person Hperson), <- !app_assoc.
    split; [reflexivity | split; [|split]].
    + apply Forall_app. split; [exact Hns1|].
      eapply Forall_impl; [exact Hns2|].
      intros k Hk. eapply susceptible_at_updated; eauto.
    + rewrite map_app, Hes1, Hes2, infected_at_later. simpl.
      unfold infected_at at 2. rewrite Hperson.
      destruct (isInfected person); reflexivity.
    + apply Forall_app. split; [exact Hds1 | exact Hds2].
Qed.

End DayLoop.

Section Infection.

Lemma infectPerson_valid (k : nat) (p : Population) (who : Person) :
  0 < infectionDuration p -> population p !! k = Some who ->
  infectPerson k p
  = Returned (set_population
                (<[k := if isSusceptible who
                        then freshly_infected (infectionDuration p) else who]>
                   (population p)) p).
Proof.
  intros Hd Hk. unfold infectPerson. rewrite Hk.
  destruct (isSusceptible who) eqn:Hs.
  - now rewrite infect_susceptible.
  - now rewrite infect_not_susceptible.
Qed.

Lemma infectPerson_invalid (k : nat) (p : Population) (who : Person) :
  infectionDuration p <= 0 -> population p !! k = Some who ->
  infectPerson k p = Thrown invalid_argument p.
Proof.
  intros Hd Hk. unfold infectPerson. rewrite Hk, infect_invalid by exact Hd.
  now rewrite list_insert_id, set_population_same.
Qed.

Lemma infectAll_spec (ks : list nat) :
  forall p,
    0 < infectionDuration p ->
    Forall (fun k => (k < length (population p))%nat) ks ->
    exists l,
      infectAll ks p = Returned (set_population l p) /\
      length l = length (population p) /\
      forall k who, population p !! k = Some who ->
        (isSusceptible who = true -> In k ks ->
         l !! k = Some (freshly_infected (infectionDuration p))) /\
        (isSusceptible who = false \/ ~ In k ks -> l !! k = Some who).
Proof.
  induction ks as [|k0 ks IH]; intros p Hd Hks.
  - exists (population p). simpl. rewrite set_population_same.
    split; [reflexivity | split; [reflexivity|]].
    intros k who Hk. split; [intros _ [] | auto].
  - apply Forall_cons in Hks as [Hk0 Hks].
    destruct (lookup_lt_is_Some_2 _ _ Hk0) as [who0 Hwho0].
    cbn [infectAll]. rewrite (infectPerson_valid k0 p who0 Hd Hwho0).
    set (w := if isSusceptible who0
              then freshly_infected (infectionDuration p) else who0).
    destruct (IH (set_population (<[k0 := w]> (population p)) p))
      as (l & E & Hlen & Hl).
    { exact Hd. }
    { simpl. rewrite length_insert. exact Hks. }
    simpl in E, Hlen, Hl. rewrite length_insert in Hlen.
    exists l. split; [exact E | split; [exact Hlen|]].
    intros k who Hk. destruct (decide (k0 = k)) as [->|Hne].
    + assert (Hw : <[k := w]> (population p) !! k = Some w)
        by (now apply list_lookup_insert_eq).
      rewrite Hwho0 in Hk. injection Hk as ->.
      destruct (Hl k w Hw) as [_ Hsame]. subst w.
      split.
      * intros Hs _. rewrite Hs in *. apply Hsame. now left.
      * intros [Hs | Hnot]; [|exfalso; apply Hnot; now left].
        rewrite Hs in *. apply Hsame. now left.
    + assert (Hw : <[k0 := w]> (population p) !! k = Some who)
        by (now rewrite list_lookup_insert_ne).
      destruct (Hl k who Hw) as [Hin Hout]. split.
      * intros Hs [Heq | Hin']; [contradiction | now apply Hin].
      * intros [Hs | Hnot]; [apply Hout; now left|].
        apply Hout. right. intros Hin'. apply Hnot. now right.
Qed.

Lemma infectAll_invalid (ks : list nat) (p : Population) :
  infectionDuration p <= 0 ->
  Forall (fun k => (k < length (population p))%nat) ks ->
  infectAll ks p = Returned p \/ infectAll ks p = Thrown invalid_argument p.
Proof.
  intros Hd Hks. destruct ks as [|k0 ks]; [now left | right].
  apply Forall_cons in Hks as [Hk0 _].
  destruct (lookup_lt_is_Some_2 _ _ Hk0) as [who0 Hwho0].
  cbn [infectAll]. now rewrite (infectPerson_invalid k0 p who0 Hd Hwho0).
Qed.

End Infection.

Section Counting.

Lemma tally_cons (f : Person -> bool) (x : Person) (l : list Person) :
  tally f (x :: l) = (if f x then 1 else 0) + tally f l.
Proof. unfold tally. simpl. destruct (f x); simpl length; lia. Qed.

Lemma tally_bounds (f : Person -> bool) (l : list Person) :
  0 <= tally f l <= Z.of_nat (length l).
Proof.
  induction l as [|x l IH]; [unfold tally; simpl; lia|].
  rewrite tally_cons. simpl length. destruct (f x); lia.
Qed.

Lemma tally_replicate (f : Person -> bool) (n : nat) (x : Person) :
  tally f (replicate n x) = if f x then Z.of_nat n else 0.
Proof.
  induction n as [|n IH]; [now destruct (f x)|].
  simpl replicate. rewrite tally_cons, IH. destruct (f x); lia.
Qed.

Lemma countLoop_spec (l : list Person) :
  forall i s r,
    0 <= i -> 0 <= s -> 0 <= r ->
    i + Z.of_nat (length l) <= INT_MAX ->
    s + Z.of_nat (length l) <= INT_MAX ->
    r + Z.of_nat (length l) <= INT_MAX ->
    countLoop l (i, s, r)
    = (i + tally isInfected l, s + tally isSusceptible l, r + tally isRecovered l).
Proof.
  induction l as [|x l IH]; intros i s r Hi Hs Hr Bi Bs Br.
  - unfold tally. simpl. now rewrite !Z.add_0_r.
  - simpl length in *. cbn [countLoop]. rewrite !tally_cons.
    destruct (isInfected x) eqn:EI.
    + rewrite (sick_not_susceptible x EI).
      assert (isRecovered x = false) as ->.
      { destruct (isRecovered x) eqn:ER; [|reflexivity].
        apply recovered_not_sick in ER. congruence. }
      rewrite to_int_small by (unfold INT_MAX in *; lia).
      rewrite IH by lia. repeat (f_equal; try lia).
    + destruct (isSusceptible x) eqn:ES.
      * assert (isRecovered x = false) as ->.
        { destruct (isRecovered x) eqn:ER; [|reflexivity].
          apply recovered_not_susceptible in ER. congruence. }
        rewrite to_int_small by (unfold INT_MAX in *; lia).
        rewrite IH by lia. repeat (f_equal; try lia).
      * destruct (isRecovered x) eqn:ER.
        -- rewrite to_int_small by (unfold INT_MAX in *; lia).
           rewrite IH by lia. repeat (f_equal; try lia).
        -- rewrite IH by lia. repeat (f_equal; try lia).
Qed.

Lemma tally_partition (l : list Person) :
  Forall (fun q => known_status q = true) l ->
  tally isInfected l + tally isSusceptible l + tally isRecovered l
  = Z.of_nat (length l).
Proof.
  induction 1 as [|x l Hx _ IH]; [reflexivity|].
  rewrite !tally_cons. simpl length. unfold known_status in Hx.
  destruct (isInfected x) eqn:EI.
  - rewrite (sick_not_susceptible x EI).
    destruct (isRecovered x) eqn:ER;
      [apply recovered_not_sick in ER; congruence | lia].
  - destruct (isSusceptible x) eqn:ES.
    + destruct (isRecovered x) eqn:ER;
        [apply recovered_not_susceptible in ER; congruence | lia].
    + simpl in Hx. rewrite Hx. lia.
Qed.

Lemma updateCounts_exact (p : Population) :
  Z.of_nat (length (population p)) <= INT_MAX ->
  updateCounts p
  = set_counts (tally isInfected (population p))
      (tally isSusceptible (population p))
      (tally isRecovered (population p)) p.
Proof.
  intros Hmax. unfold updateCounts.
  rewrite countLoop_spec by lia. reflexivity.
Qed.

End Counting.

Section OneDay.

Variable rd : nat -> mt19937.
Variable p : Population.
Hypothesis in_int : Z.of_nat (length (population p)) <= INT_MAX.

Lemma dayLoop_spec :
  exists ns es,
    dayLoop rd p
      = Some {| cohort := set_population (map updateState (population p)) p;
                newly := ns; contactLog := es |} /\
    Forall (susceptible_at (population p)) ns /\
    map fst es
      = List.filter (infected_at (population p)) (seq 0 (length (population p))) /\
    Forall (fun e =>
              Z.of_nat (length (snd e))
              = contactsDrawn (contactsPerDay p) (Z.of_nat (length (population p))) /\
              Forall (fun k => (k < length (population p))%nat) (snd e)) es.
Proof.
  destruct (personLoop_spec rd (length (population p)) 0
              {| cohort := p; newly := []; contactLog := [] |}
              ltac:(reflexivity) in_int) as (ns & es & E & H).
  exists ns, es. unfold dayLoop. rewrite E. simpl.
  split; [reflexivity | exact H].
Qed.

Lemma susceptible_at_lt (l : list Person) (ks : list nat) :
  Forall (susceptible_at l) ks -> Forall (fun k => (k < length l)%nat) ks.
Proof.
  intros H. eapply Forall_impl; [exact H|].
  intros k (who & Hk & _). eapply lookup_lt_Some; eauto.
Qed.

(** With a valid duration the call returns, and each member ends either
    freshly infected or as its own [updateState] left it. *)
Lemma simulateOneDay_valid :
  0 < infectionDuration p ->
  exists s l,
    dayLoop rd p = Some s /\
    population (cohort s) = map updateState (population p) /\
    Forall (susceptible_at (population p)) (newly s) /\
    simulateOneDay rd p
      = Returned (updateCounts (set_day (to_int (day p + 1)) (set_population l p))) /\
    length l = length (population p) /\
    forall k who, population p !! k = Some who ->
      (isSusceptible who = true -> In k (newly s) ->
       l !! k = Some (freshly_infected (infectionDuration p))) /\
      (isSusceptible who = false \/ ~ In k (newly s) ->
       l !! k = Some (updateState who)).
Proof.
  intros Hd. destruct dayLoop_spec as (ns & es & E & Hns & _).
  set (mid := set_population (map updateState (population p)) p).
  destruct (infectAll_spec ns mid) as (l & EA & Hlen & Hl).
  { exact Hd. }
  { simpl. rewrite length_map. now apply susceptible_at_lt. }
  simpl in EA, Hlen, Hl. rewrite length_map in Hlen.
  eexists _, l. split; [exact E|]. simpl.
  split; [reflexivity | split; [exact Hns|]].
  unfold simulateOneDay. rewrite E. cbn [newly cohort]. fold mid. rewrite EA.
  split; [reflexivity | split; [exact Hlen|]].
  intros k who Hk.
  assert (Hk' : map updateState (population p) !! k = Some (updateState who))
    by (now rewrite list_lookup_fmap_Some; exists who).
  destruct (Hl k (updateState who) Hk') as [Hin Hout].
  rewrite updateState_susceptible in Hin, Hout. split; [exact Hin | exact Hout].
Qed.

(** With an invalid duration the call returns when nobody was selected and
    throws, after the countdown updates, when somebody was. *)
Lemma simulateOneDay_invalid :
  infectionDuration p <= 0 ->
  let mid := set_population (map updateState (population p)) p in
  simulateOneDay rd p = Returned (updateCounts (set_day (to_int (day p + 1)) mid)) \/
  simulateOneDay rd p = Thrown invalid_argument mid.
Proof.
  intros Hd mid. destruct dayLoop_spec as (ns & es & E & Hns & _).
  unfold simulateOneDay. rewrite E. cbn [newly cohort]. fold mid.
  destruct (infectAll_invalid ns mid) as [EA|EA].
  { exact Hd. }
  { simpl. rewrite length_map. now apply susceptible_at_lt. }
  - rewrite EA. now left.
  - rewrite EA. now right.
Qed.

End OneDay.

Section Reachable.

Lemma Population_new_consistent (N : Z) :
  0 <= N <= INT_MAX ->
  exists p, Population_new N = inr p /\ consistent p /\ partitioned p /\
            counts_exact p /\ size p = N /\ infectionDuration p = 0.
Proof.
  intros HN. unfold Population_new. destruct (Z.ltb_spec N 0); [lia|].
  eexists. split; [reflexivity|]. unfold consistent, partitioned, counts_exact.
  cbn -[replicate tally]. rewrite !tally_replicate, length_replicate. simpl.
  repeat split; try lia. apply Forall_replicate. reflexivity.
Qed.

Lemma updateCounts_consistent (q : Population) :
  consistent q ->
  consistent (updateCounts q) /\ partitioned (updateCounts q) /\
  counts_exact (updateCounts q) /\ size (updateCounts q) = size q.
Proof.
  intros (Hlen & Hmax & Hknown). rewrite updateCounts_exact by lia.
  unfold consistent, partitioned, counts_exact. cbn -[tally].
  pose proof (tally_partition _ Hknown). repeat split; auto; lia.
Qed.

Lemma infectRandomPerson_cases (gen : mt19937) (p : Population) :
  consistent p -> 1 <= size p ->
  exists k who,
    population p !! k = Some who /\
    (0 < infectionDuration p ->
     infectRandomPerson gen p
     = Returned (set_population
                   (<[k := if isSusceptible who
                           then freshly_infected (infectionDuration p) else who]>
                      (population p)) p)) /\
    (infectionDuration p <= 0 ->
     infectRandomPerson gen p = Thrown invalid_argument p).
Proof.
  intros (Hlen & Hmax & _) Hsize. unfold infectRandomPerson.
  rewrite to_int_small by (unfold INT_MAX in *; lia).
  pose proof (uniform_int_in_range 0 (size p - 1) gen ltac:(lia)) as Hrange.
  destruct (uniform_int_distribution 0 (size p - 1) gen) as [index gen'].
  simpl in Hrange.
  assert (Hlt : (Z.to_nat index < length (population p))%nat) by lia.
  destruct (lookup_lt_is_Some_2 _ _ Hlt) as [who Hwho].
  exists (Z.to_nat index), who. split; [exact Hwho | split]; intros Hd.
  - now apply infectPerson_valid.
  - now apply infectPerson_invalid with who.
Qed.

Lemma known_after_day (p : Population) (l : list Person) (ks : list nat) :
  Forall (fun q => known_status q = true) (population p) ->
  length l = length (population p) ->
  (forall k who, population p !! k = Some who ->
     (isSusceptible who = true -> In k ks ->
      l !! k = Some (freshly_infected (infectionDuration p))) /\
     (isSusceptible who = false \/ ~ In k ks -> l !! k = Some (updateState who))) ->
  Forall (fun q => known_status q = true) l.
Proof.
  intros Hknown Hlen Hl. apply Forall_lookup. intros k x Hx.
  assert (Hlt : (k < length (population p))%nat)
    by (rewrite <- Hlen; eapply lookup_lt_Some; eauto).
  destruct (lookup_lt_is_Some_2 _ _ Hlt) as [who Hwho].
  destruct (Hl k who Hwho) as [Hin Hout].
  assert (Hw : known_status who = true)
    by (eapply (proj1 (Forall_lookup _ _) Hknown); eauto).
  destruct (isSusceptible who) eqn:Hs.
  - destruct (in_dec Nat.eq_dec k ks) as [Hk|Hk].
    + rewrite Hin in Hx by auto. injection Hx as <-. reflexivity.
    + rewrite Hout in Hx by auto. injection Hx as <-. now apply updateState_known.
  - rewrite Hout in Hx by auto. injection Hx as <-. now apply updateState_known.
Qed.

Lemma cohort_step_invariant (c : cohort_call) (p : Population) :
  consistent p -> partitioned p ->
  match cohort_step c p with
  | Returned p' | Thrown _ p' =>
      consistent p' /\ partitioned p' /\ size p' = size p
  | Undefined => size p < 1
  end.
Proof.
  intros Hc Hp. pose proof Hc as (Hlen & Hmax & Hknown).
  destruct c as [q|n|d|gen|rd]; cbn [cohort_step]; try (repeat split; assumption).
  - destruct (Z.le_gt_cases 1 (size p)) as [Hsize|Hsize].
    + destruct (infectRandomPerson_cases gen p Hc Hsize)
        as (k & who & Hk & Hvalid & Hinvalid).
      destruct (Z.le_gt_cases (infectionDuration p) 0) as [Hd|Hd].
      * rewrite Hinvalid by exact Hd. repeat split; assumption.
      * rewrite Hvalid by lia. split; [|split; [exact Hp | reflexivity]].
        unfold consistent. simpl. rewrite length_insert.
        split; [exact Hlen | split; [exact Hmax|]].
        apply Forall_insert; [exact Hknown|].
        destruct (isSusceptible who); [reflexivity|].
        eapply (proj1 (Forall_lookup _ _) Hknown); eauto.
    + assert (E : population p = [])
        by (destruct (population p); [reflexivity | simpl in Hlen; lia]).
      unfold infectRandomPerson.
      destruct (uniform_int_distribution 0 (to_int (size p - 1)) gen)
        as [index gen'].
      unfold infectPerson. rewrite E. simpl. lia.
  - assert (Hint : Z.of_nat (length (population p)) <= INT_MAX) by lia.
    assert (Hmid : consistent (set_population (map updateState (population p)) p)).
    { unfold consistent. simpl. rewrite length_map.
      split; [exact Hlen | split; [exact Hmax|]].
      apply Forall_map. eapply Forall_impl; [exact Hknown|].
      intros x. apply updateState_known. }
    destruct (Z.le_gt_cases (infectionDuration p) 0) as [Hd|Hd].
    + destruct (simulateOneDay_invalid rd p Hint Hd) as [E|E]; rewrite E.
      * match goal with |- context [updateCounts ?q] =>
          destruct (updateCounts_consistent q) as (H1 & H2 & _ & H4) end.
        { exact Hmid. }
        split; [exact H1 | split; [exact H2 | exact H4]].
      * split; [exact Hmid | split; [exact Hp | reflexivity]].
    + destruct (simulateOneDay_valid rd p Hint ltac:(lia))
        as (s & l & _ & _ & _ & E & Hl & Hspec).
      rewrite E.
      match goal with |- context [updateCounts ?q] =>
        destruct (updateCounts_consistent q) as (H1 & H2 & _ & H4) end.
      { unfold consistent. simpl. rewrite Hl.
        split; [exact Hlen | split; [exact Hmax|]].
        eapply known_after_day; eauto. }
      split; [exact H1 | split; [exact H2 | exact H4]].
Qed.

(** After a [simulateOneDay] that returns, the cached counts are the numbers
    of members in each state. *)
Lemma simulateOneDay_counts_exact (rd : nat -> mt19937) (p p' : Population) :
  consistent p -> simulateOneDay rd p = Returned p' -> counts_exact p'.
Proof.
  intros Hc Hret. pose proof Hc as (Hlen & Hmax & Hknown).
  assert (Hint : Z.of_nat (length (population p)) <= INT_MAX) by lia.
  destruct (Z.le_gt_cases (infectionDuration p) 0) as [Hd|Hd].
  - destruct (simulateOneDay_invalid rd p Hint Hd) as [E|E];
      rewrite E in Hret; [|discriminate].
    injection Hret as <-.
    match goal with |- context [updateCounts ?q] =>
      destruct (updateCounts_consistent q) as (_ & _ & H3 & _) end; [|exact H3].
    unfold consistent. simpl. rewrite length_map.
    split; [exact Hlen | split; [exact Hmax|]].
    apply Forall_map. eapply Forall_impl; [exact Hknown|].
    intros x. apply updateState_known.
  - destruct (simulateOneDay_valid rd p Hint ltac:(lia))
      as (s & l & _ & _ & _ & E & Hl & Hspec).
    rewrite E in Hret. injection Hret as <-.
    match goal with |- context [updateCounts ?q] =>
      destruct (updateCounts_consistent q) as (_ & _ & H3 & _) end; [|exact H3].
    unfold consistent. simpl. rewrite Hl.
    split; [exact Hlen | split; [exact Hmax|]].
    eapply known_after_day; eauto.
Qed.

End Reachable.

Section Runs.

Lemma population_updateCounts (q : Population) :
  population (updateCounts q) = population q.
Proof.
  unfold updateCounts. destruct (countLoop (population q) (0, 0, 0)) as [[i s] r].
  reflexivity.
Qed.

Lemma cohort_run_invariant (calls : list cohort_call) :
  forall p,
    consistent p -> partitioned p ->
    (forall p', cohort_run calls p = Some p' ->
                consistent p' /\ partitioned p' /\ size p' = size p) /\
    (1 <= size p -> exists p', cohort_run calls p = Some p').
Proof.
  induction calls as [|c calls IH]; intros p Hc Hp.
  - simpl. split; [intros p' [= <-]; auto | eauto].
  - pose proof (cohort_step_invariant c p Hc Hp) as Hstep.
    cbn [cohort_run].
    destruct (cohort_step c p) as [p1|e p1|].
    + destruct Hstep as (Hc1 & Hp1 & Hs1). destruct (IH p1 Hc1 Hp1) as [Hinv Htot].
      rewrite <- Hs1. split; [exact Hinv | exact Htot].
    + destruct Hstep as (Hc1 & Hp1 & Hs1). destruct (IH p1 Hc1 Hp1) as [Hinv Htot].
      rewrite <- Hs1. split; [exact Hinv | exact Htot].
    + split; [discriminate | intros; lia].
Qed.

End Runs.

(** * The day-advance algorithm *)

(** C2. In a call of [simulateOneDay] (with a positive configured duration,
    on an object whose vector length is an [int]) a member that is
    susceptible at the start and is put in [newlyInfected] is still untouched
    when the loop that updates every member's countdown has finished, and at
    the end of the call it is infected with the full [infectionDuration];
    every member that was not susceptible at the start ends exactly as its
    own [updateState] left it, so none that recovered is infected again. *)
Theorem newly_infected_start_fresh (rd : nat -> mt19937) (p : Population) :
  Z.of_nat (length (population p)) <= INT_MAX ->
  0 < infectionDuration p ->
  exists s p',
    dayLoop rd p = Some s /\
    simulateOneDay rd p = Returned p' /\
    population (cohort s) = map updateState (population p) /\
    forall k who, population p !! k = Some who ->
      (isSusceptible who = true -> In k (newly s) ->
       population (cohort s) !! k = Some who /\
       population p' !! k = Some (freshly_infected (infectionDuration p))) /\
      (isSusceptible who = true -> ~ In k (newly s) ->
       population p' !! k = Some who) /\
      (isSusceptible who = false ->
       population p' !! k = Some (updateState who)).
Proof.
  intros Hint Hd.
  destruct (simulateOneDay_valid rd p Hint Hd) as (s & l & E & Hmid & _ & Eday & _ & Hl).
  eexists s, _. split; [exact E | split; [exact Eday | split; [exact Hmid|]]].
  rewrite population_updateCounts. simpl.
  intros k who Hk. destruct (Hl k who Hk) as [Hin Hout].
  split; [|split].
  - intros Hs Hsel. split; [|now apply Hin].
    rewrite Hmid, list_lookup_fmap, Hk. simpl.
    now rewrite updateState_not_sick by (now apply susceptible_not_sick).
  - intros Hs Hsel. rewrite Hout by (now right).
    now rewrite updateState_not_sick by (now apply susceptible_not_sick).
  - intros Hs. apply Hout. now left.
Qed.

Lemma newly_infected_start_fresh_witness :
  exists s p',
    dayLoop (fun _ => engine_of [1; 0]) last_day_pair = Some s /\
    simulateOneDay (fun _ => engine_of [1; 0]) last_day_pair = Returned p' /\
    newly s = [1%nat] /\
    population p' = [mkPerson 0 "recovered"; mkPerson 3 "sick"].
Proof.
  destruct (newly_infected_start_fresh (fun _ => engine_of [1; 0]) last_day_pair)
    as (s & p' & E & Eday & _ & _).
  - vm_compute. discriminate.
  - reflexivity.
  - exists s, p'. split; [exact E | split; [exact Eday|]].
    vm_compute in E. injection E as <-.
    vm_compute in Eday. injection Eday as <-.
    split; reflexivity.
Defined.

(** * Aggregate counts *)

(** C4. From the construction of a population of [N] members on, after any
    sequence of setter, [infectRandomPerson] and [simulateOneDay] calls
    (throwing ones included), the three cached counts add up to [N]; and for
    [N >= 1] every such sequence is defined. *)
Theorem counts_add_up_to_size (N : Z) (calls : list cohort_call) :
  0 <= N <= INT_MAX ->
  exists p,
    Population_new N = inr p /\
    (forall p', cohort_run calls p = Some p' ->
       getSusceptibleCount p' + getInfectedCount p' + getRecoveredCount p' = N /\
       getPopulationSize p' = N) /\
    (1 <= N -> exists p', cohort_run calls p = Some p').
Proof.
  intros HN.
  destruct (Population_new_consistent N HN) as (p & E & Hc & Hp & _ & Hs & _).
  destruct (cohort_run_invariant calls p Hc Hp) as [Hinv Htot].
  exists p. split; [exact E | split].
  - intros p' Hrun. destruct (Hinv p' Hrun) as (_ & Hp' & Hs').
    unfold partitioned, getPopulationSize in *. split; lia.
  - intros H1. apply Htot. lia.
Qed.

Lemma counts_add_up_to_size_witness :
  exists p p',
    Population_new 4 = inr p /\
    cohort_run [CallInfectRandomPerson (engine_of [2]);
                CallSetInfectionDuration 2; CallSetContactsPerDay 3;
                CallSetInfectionProbability 1;
                CallInfectRandomPerson (engine_of [2]);
                CallSimulateOneDay (fun _ => engine_of [1; 7; 3; 9; 2; 0])] p
      = Some p' /\
    getSusceptibleCount p' + getInfectedCount p' + getRecoveredCount p' = 4.
Proof.
  destruct (counts_add_up_to_size 4
              [CallInfectRandomPerson (engine_of [2]);
               CallSetInfectionDuration 2; CallSetContactsPerDay 3;
               CallSetInfectionProbability 1;
               CallInfectRandomPerson (engine_of [2]);
               CallSimulateOneDay (fun _ => engine_of [1; 7; 3; 9; 2; 0])])
    as (p & E & Hsum & Htot).
  - unfold INT_MAX. lia.
  - destruct (Htot ltac:(lia)) as (p' & Hrun).
    exists p, p'. split; [exact E | split; [exact Hrun|]].
    apply (Hsum p' Hrun).
Defined.

(** * Failure behaviour of the Population methods *)

(** C7, as the code has it.  In every state reached from a population of
    [N >= 1] members by any sequence of calls: a setter returns; with a
    positive [infectionDuration] so do [infectRandomPerson] and
    [simulateOneDay]; with [infectionDuration <= 0], [infectRandomPerson]
    throws [invalid_argument] and leaves the object as it was. *)
Theorem throws_only_on_invalid_duration
    (N : Z) (calls : list cohort_call) (c : cohort_call) :
  1 <= N <= INT_MAX ->
  exists p0 p,
    Population_new N = inr p0 /\
    cohort_run calls p0 = Some p /\
    (is_setter c = true \/ 0 < infectionDuration p ->
     exists p', cohort_step c p = Returned p') /\
    (forall gen, infectionDuration p <= 0 ->
       cohort_step (CallInfectRandomPerson gen) p = Thrown invalid_argument p).
Proof.
  intros HN.
  destruct (Population_new_consistent N ltac:(lia)) as (p0 & E & Hc0 & Hp0 & _ & Hs0 & _).
  destruct (cohort_run_invariant calls p0 Hc0 Hp0) as [Hinv Htot].
  destruct (Htot ltac:(lia)) as (p & Hrun).
  destruct (Hinv p Hrun) as (Hc & Hp & Hs).
  exists p0, p. split; [exact E | split; [exact Hrun | split]].
  - intros Hok. destruct c as [q|n|d|gen|rd]; cbn [cohort_step]; eauto.
    + destruct Hok as [Hf|Hd]; [discriminate|].
      destruct (infectRandomPerson_cases gen p Hc ltac:(lia)) as (k & who & _ & Hv & _).
      rewrite Hv by exact Hd. eauto.
    + destruct Hok as [Hf|Hd]; [discriminate|].
      destruct Hc as (Hlen & Hmax & _).
      destruct (simulateOneDay_valid rd p ltac:(lia) Hd)
        as (s & l & _ & _ & _ & Eday & _).
      rewrite Eday. eauto.
  - intros gen Hd. cbn [cohort_step].
    destruct (infectRandomPerson_cases gen p Hc ltac:(lia)) as (k & who & _ & _ & Hi).
    now apply Hi.
Qed.

Lemma throws_only_on_invalid_duration_witness :
  exists p0 p p',
    Population_new 5 = inr p0 /\
    cohort_run [CallSetInfectionDuration 4; CallInfectRandomPerson (engine_of [3])] p0
      = Some p /\
    cohort_step (CallSimulateOneDay (fun _ => engine_of [])) p = Returned p'.
Proof.
  destruct (throws_only_on_invalid_duration 5
              [CallSetInfectionDuration 4; CallInfectRandomPerson (engine_of [3])]
              (CallSimulateOneDay (fun _ => engine_of [])))
    as (p0 & p & E & Hrun & Hret & _).
  - unfold INT_MAX. lia.
  - destruct Hret as (p' & Hp').
    + right. pose proof E as E0. vm_compute in E0. injection E0 as <-.
      pose proof Hrun as Hrun0. vm_compute in Hrun0. injection Hrun0 as <-.
      reflexivity.
    + exists p0, p, p'. auto.
Defined.

(** C7 as stated fails: on a population just constructed, whose
    [infectionDuration] is still 0, [infectRandomPerson] throws. *)
Lemma seeding_before_configuration_throws :
  exists p0,
    Population_new 10 = inr p0 /\
    infectionDuration p0 = 0 /\
    infectRandomPerson (engine_of [0]) p0 = Thrown invalid_argument p0.
Proof. eexists. split; [reflexivity|]. split; reflexivity. Qed.

(** * Where the code departs from its documented behaviour *)

(** C1.  [infectRandomPerson] changes a member and does not recompute the
    cached counts: after seeding one infection in a fresh population of ten,
    whichever member the engine selects, the getters still report
    S=10, I=0, R=0 while the members are 9 susceptible and 1 infected. *)
Theorem seeding_leaves_counts_stale (gen : mt19937) :
  exists p0,
    Population_new 10 = inr p0 /\
    exists p,
      infectRandomPerson gen (setInfectionDuration 3 p0) = Returned p /\
      observed p = (10, 0, 0) /\
      (tally isSusceptible (population p), tally isInfected (population p),
       tally isRecovered (population p)) = (9, 1, 0).
Proof.
  eexists. split; [reflexivity|].
  pose proof (uniform_int_in_range 0 9 gen ltac:(lia)) as Hr.
  unfold infectRandomPerson. cbn [size setInfectionDuration].
  change (to_int (10 - 1)) with 9.
  destruct (uniform_int_distribution 0 9 gen) as [index gen']. simpl in Hr.
  assert (Hk : (Z.to_nat index < 10)%nat) by lia.
  generalize dependent (Z.to_nat index). intros k Hk. clear Hr.
  do 10 (destruct k as [|k];
         [eexists; split; [reflexivity | split; reflexivity] |]).
  lia.
Qed.

(** C5.  The scenario N=10, duration 3, no contacts, one seeded infection,
    for every selection the engine makes and every engine of the three days:
    the getters report (S, I, R) = (10, 0, 0) on day 0, (9, 1, 0) after the
    first and second [simulateOneDay] and (9, 0, 1) after the third. *)
Theorem scenario_three_day_infection (gen : mt19937) (rd1 rd2 rd3 : nat -> mt19937) :
  exists p0,
    Population_new 10 = inr p0 /\
    exists d0 d1 d2 d3,
      infectRandomPerson gen (setContactsPerDay 0 (setInfectionDuration 3 p0))
        = Returned d0 /\
      simulateOneDay rd1 d0 = Returned d1 /\
      simulateOneDay rd2 d1 = Returned d2 /\
      simulateOneDay rd3 d2 = Returned d3 /\
      observed d0 = (10, 0, 0) /\
      observed d1 = (9, 1, 0) /\
      observed d2 = (9, 1, 0) /\
      observed d3 = (9, 0, 1).
Proof.
  eexists. split; [reflexivity|].
  pose proof (uniform_int_in_range 0 9 gen ltac:(lia)) as Hr.
  unfold infectRandomPerson.
  cbn [size setInfectionDuration setContactsPerDay].
  change (to_int (10 - 1)) with 9.
  destruct (uniform_int_distribution 0 9 gen) as [index gen']. simpl in Hr.
  assert (Hk : (Z.to_nat index < 10)%nat) by lia.
  generalize dependent (Z.to_nat index). intros k Hk. clear Hr.
  do 10 (destruct k as [|k];
         [do 4 eexists; repeat (split; [vm_compute; reflexivity|]);
          vm_compute; reflexivity |]).
  lia.
Qed.

(** * Further properties of Person *)

Lemma updateState_sick (k : Z) :
  0 < k <= INT_MAX ->
  updateState (mkPerson k "sick")
  = if k <=? 1 then mkPerson 0 "recovered" else mkPerson (k - 1) "sick".
Proof.
  intros Hk. unfold updateState. cbn [current infectionDays].
  change (String.eqb "sick" "sick") with true. cbv iota.
  rewrite to_int_small by (unfold INT_MAX in *; lia).
  destruct (Z.leb_spec (k - 1) 0); destruct (Z.leb_spec k 1); try lia; reflexivity.
Qed.

Lemma person_run_recovered (calls : list person_call) :
  forall p, isRecovered p = true -> person_run calls p = p.
Proof.
  unfold person_run. induction calls as [|c calls IH]; intros p Hr; [reflexivity|].
  simpl. assert (person_step p c = p) as ->; [|now apply IH].
  destruct c as [d|]; simpl.
  - destruct (Z.leb_spec d 0).
    + now rewrite infect_invalid.
    + now rewrite infect_not_susceptible by auto using recovered_not_susceptible.
  - apply updateState_not_sick. now apply recovered_not_sick.
Qed.

Lemma countdown_from (n : nat) :
  forall k, 0 < k <= INT_MAX ->
    person_run (replicate n CallUpdateState) (mkPerson k "sick")
    = if Z.of_nat n <? k then mkPerson (k - Z.of_nat n) "sick"
      else mkPerson 0 "recovered".
Proof.
  induction n as [|n IH]; intros k Hk.
  - unfold person_run. cbn [replicate fold_left]. change (Z.of_nat 0) with 0.
    destruct (Z.ltb_spec 0 k); [|lia]. now rewrite Z.sub_0_r.
  - simpl replicate. unfold person_run in *. cbn [fold_left person_step].
    rewrite updateState_sick by exact Hk.
    destruct (Z.leb_spec k 1) as [H1|H1].
    + destruct (Z.ltb_spec (Z.of_nat (S n)) k); [lia|].
      now apply (person_run_recovered (replicate n CallUpdateState)).
    + rewrite IH by lia.
      destruct (Z.ltb_spec (Z.of_nat n) (k - 1));
        destruct (Z.ltb_spec (Z.of_nat (S n)) k); try lia; [|reflexivity].
      f_equal. lia.
Qed.

(** X1. A susceptible person infected with duration [d] (a positive [int])
    is still infected after fewer than [d] calls of [updateState], with
    [d - n] days left after [n] of them, and is recovered with countdown 0
    after [d] calls or more. *)
Theorem countdown_lasts_exactly_duration (d : Z) (n : nat) :
  0 < d <= INT_MAX ->
  person_run (CallInfect d :: replicate n CallUpdateState) Person_new
  = if Z.of_nat n <? d then mkPerson (d - Z.of_nat n) "sick"
    else mkPerson 0 "recovered".
Proof.
  intros Hd. unfold person_run. cbn [fold_left person_step].
  rewrite infect_susceptible by (lia || reflexivity). cbn [after_outcome].
  now apply countdown_from.
Qed.

Lemma countdown_lasts_exactly_duration_witness :
  person_run (CallInfect 3 :: replicate 2 CallUpdateState) Person_new
    = mkPerson 1 "sick" /\
  person_run (CallInfect 3 :: replicate 3 CallUpdateState) Person_new
    = mkPerson 0 "recovered".
Proof.
  split.
  - apply (countdown_lasts_exactly_duration 3 2). unfold INT_MAX. lia.
  - apply (countdown_lasts_exactly_duration 3 3). unfold INT_MAX. lia.
Defined.

(** X2. Whatever calls are made on a person after its construction,
    [getStatus] is one of the three strings the counting loop of
    [updateCounts] tests for. *)
Theorem status_is_one_of_three (calls : list person_call) :
  let status := getStatus (person_run calls Person_new) in
  status = "susceptible" \/ status = "sick" \/ status = "recovered".
Proof.
  assert (H : forall p, known_status p = true ->
                        known_status (person_run calls p) = true).
  { unfold person_run. induction calls as [|c calls IH]; intros p Hp; [exact Hp|].
    simpl. apply IH. destruct c as [d|]; simpl.
    - unfold infect. destruct (d <=? 0); [exact Hp|].
      destruct (String.eqb (current p) "susceptible"); [reflexivity | exact Hp].
    - now apply updateState_known. }
  specialize (H Person_new eq_refl). unfold known_status in H.
  unfold isInfected, isSusceptible, isRecovered, getStatus in *.
  destruct (String.eqb_spec (current (person_run calls Person_new)) "sick"); auto.
  destruct (String.eqb_spec (current (person_run calls Person_new)) "susceptible"); auto.
  destruct (String.eqb_spec (current (person_run calls Person_new)) "recovered"); auto.
  discriminate.
Qed.

(** * Further properties of the day-advance algorithm *)

Section Selection.

Lemma roll_in_unit (gen : mt19937) :
  (0 <= fst (uniform_real_distribution gen))%Q /\
  (fst (uniform_real_distribution gen) < 1)%Q.
Proof.
  unfold uniform_real_distribution. cbn [engine_next fst].
  pose proof (Z.mod_pos_bound (outputs gen (position gen)) (2 ^ 32) ltac:(lia)) as H.
  unfold Qle, Qlt. cbn [Qnum Qden]. change (Z.pos (2 ^ 32)) with (2 ^ 32). lia.
Qed.

Lemma roll_fails_below_zero (gen : mt19937) (q : Q) :
  (q < 0)%Q -> Qle_bool (fst (uniform_real_distribution gen)) q = false.
Proof.
  intros Hq. destruct (Qle_bool _ q) eqn:E; [|reflexivity].
  apply Qle_bool_iff in E. destruct (roll_in_unit gen) as [H0 _].
  exfalso. apply (Qlt_irrefl 0). eapply Qle_lt_trans; [|exact Hq].
  eapply Qle_trans; eauto.
Qed.

Lemma roll_passes_from_one (gen : mt19937) (q : Q) :
  (1 <= q)%Q -> Qle_bool (fst (uniform_real_distribution gen)) q = true.
Proof.
  intros Hq. apply Qle_bool_iff. destruct (roll_in_unit gen) as [_ H1].
  apply Qlt_le_weak. eapply Qlt_le_trans; eauto.
Qed.

Lemma susceptibleb_updated (l : list Person) (j k : nat) (person : Person) :
  l !! j = Some person ->
  susceptibleb (<[j := updateState person]> l) k = susceptibleb l k.
Proof.
  intros Hj. unfold susceptibleb. destruct (decide (j = k)) as [->|Hne].
  - rewrite list_lookup_insert_eq by (eapply lookup_lt_Some; eauto).
    rewrite Hj. apply updateState_susceptible.
  - now rewrite list_lookup_insert_ne.
Qed.

Lemma contactLoop_selection (p : Population) (fuel : nat) :
  forall i gen newlyInfected drawn r,
    contactLoop fuel i p gen newlyInfected drawn = Some r ->
    exists ns ds,
      r = (newlyInfected ++ ns, drawn ++ ds) /\
      incl ns ds /\
      ((infectionProbability p < 0)%Q -> ns = []) /\
      ((1 <= infectionProbability p)%Q ->
       ns = List.filter (susceptibleb (population p)) ds).
Proof.
  induction fuel as [|fuel IH]; intros i gen nI dr r; cbn [contactLoop];
    destruct ((i <? contactsPerDay p)
              && (i <? to_int (to_int (Z.of_nat (length (population p))) - 1)));
    try discriminate;
    try (intros [= <-]; exists [], []; rewrite !app_nil_r;
         repeat split; auto; apply incl_refl).
  destruct (uniform_int_distribution 0
              (to_int (Z.of_nat (length (population p)) - 1)) gen)
    as [contactIndex gen1].
  destruct (population p !! Z.to_nat contactIndex) as [who|] eqn:Hwho;
    [|discriminate].
  assert (Hsb : susceptibleb (population p) (Z.to_nat contactIndex) = isSusceptible who)
    by (unfold susceptibleb; now rewrite Hwho).
  destruct (isSusceptible who) eqn:Hs.
  - pose proof (roll_fails_below_zero gen1 (infectionProbability p)) as Hlow.
    pose proof (roll_passes_from_one gen1 (infectionProbability p)) as Hhigh.
    destruct (uniform_real_distribution gen1) as [u gen2]. cbn [fst] in Hlow, Hhigh.
    destruct (Qle_bool u (infectionProbability p)) eqn:Hu; intros Hrun;
      destruct (IH _ _ _ _ _ Hrun) as (ns & ds & -> & Hincl & Hneg & Hone).
    + exists (Z.to_nat contactIndex :: ns), (Z.to_nat contactIndex :: ds).
      rewrite <- !app_assoc. split; [reflexivity | split; [|split]].
      * intros x [<-|Hx]; [now left | right; now apply Hincl].
      * intros Hq. specialize (Hlow Hq). congruence.
      * intros Hq. cbn [List.filter]. rewrite Hsb. f_equal. now apply Hone.
    + exists ns, (Z.to_nat contactIndex :: ds).
      rewrite <- !app_assoc. split; [reflexivity | split; [|split]].
      * intros x Hx. right. now apply Hincl.
      * exact Hneg.
      * intros Hq. specialize (Hhigh Hq). congruence.
  - intros Hrun. destruct (IH _ _ _ _ _ Hrun) as (ns & ds & -> & Hincl & Hneg & Hone).
    exists ns, (Z.to_nat contactIndex :: ds).
    rewrite <- !app_assoc. split; [reflexivity | split; [|split]].
    + intros x Hx. right. now apply Hincl.
    + exact Hneg.
    + intros Hq. cbn [List.filter]. rewrite Hsb. now apply Hone.
Qed.

Lemma personLoop_selection (rd : nat -> mt19937) (todo : nat) :
  forall j s s',
    personLoop todo j rd s = Some s' ->
    exists ns es,
      newly s' = newly s ++ ns /\
      contactLog s' = contactLog s ++ es /\
      incl ns (concat (map snd es)) /\
      ((infectionProbability (cohort s) < 0)%Q -> ns = []) /\
      ((1 <= infectionProbability (cohort s))%Q ->
       ns = List.filter (susceptibleb (population (cohort s))) (concat (map snd es))).
Proof.
  induction todo as [|todo IH]; intros j s s'; cbn [personLoop].
  - intros [= <-]. exists [], []. rewrite !app_nil_r. repeat split; auto.
    apply incl_refl.
  - destruct (population (cohort s) !! j) as [person|] eqn:Hperson; [|discriminate].
    assert (Htrans : forall t,
      (if isInfected person then
         match simulateTransmission (rd j) (cohort s) (newly s) with
         | None => None
         | Some (newlyInfected, drawn) =>
             Some (newlyInfected, contactLog s ++ [(j, drawn)])
         end
       else Some (newly s, contactLog s)) = Some t ->
      exists ns1 es1,
        t = (newly s ++ ns1, contactLog s ++ es1) /\
        incl ns1 (concat (map snd es1)) /\
        ((infectionProbability (cohort s) < 0)%Q -> ns1 = []) /\
        ((1 <= infectionProbability (cohort s))%Q ->
         ns1 = List.filter (susceptibleb (population (cohort s)))
                 (concat (map snd es1)))).
    { intros t. destruct (isInfected person).
      - unfold simulateTransmission.
        destruct (contactLoop _ 0 (cohort s) (rd j) (newly s) []) as [r|] eqn:E;
          [|discriminate].
        destruct (contactLoop_selection _ _ _ _ _ _ _ E)
          as (ns1 & ds & -> & Hincl & Hneg & Hone).
        intros [= <-]. exists ns1, [(j, ds)]. cbn [map snd concat app].
        rewrite app_nil_r. auto.
      - intros [= <-]. exists [], []. rewrite !app_nil_r. repeat split; auto.
        apply incl_refl. }
    destruct (if isInfected person then _ else _) as [t|]; [|discriminate].
    destruct (Htrans t eq_refl) as (ns1 & es1 & -> & Hincl1 & Hneg1 & Hone1).
    intros Hrun. destruct (IH _ _ _ Hrun) as (ns2 & es2 & E1 & E2 & Hincl2 & Hneg2 & Hone2).
    cbn [newly contactLog cohort] in *.
    exists (ns1 ++ ns2), (es1 ++ es2). rewrite E1, E2, <- !app_assoc.
    rewrite map_app, concat_app.
    split; [reflexivity | split; [reflexivity | split; [|split]]].
    + apply incl_app; [now apply incl_appl | now apply incl_appr].
    + intros Hq. rewrite Hneg1, Hneg2 by exact Hq. reflexivity.
    + intros Hq. rewrite List.filter_app, <- Hone1 by exact Hq. f_equal.
      rewrite (Hone2 Hq). apply filter_ext. intros k. cbn [population set_population].
      now apply susceptibleb_updated.
Qed.

Lemma dayLoop_selection (rd : nat -> mt19937) (p : Population) (s : dayState) :
  dayLoop rd p = Some s ->
  incl (newly s) (contactsOfDay s) /\
  ((infectionProbability p < 0)%Q -> newly s = []) /\
  ((1 <= infectionProbability p)%Q ->
   newly s = List.filter (susceptibleb (population p)) (contactsOfDay s)).
Proof.
  unfold dayLoop, contactsOfDay. intros Hrun.
  destruct (personLoop_selection _ _ _ _ _ Hrun) as (ns & es & E1 & E2 & H).
  cbn [newly contactLog cohort app] in *. rewrite E1, E2. exact H.
Qed.

End Selection.

Section Compartments.

Lemma tally_app (f : Person -> bool) (l1 l2 : list Person) :
  tally f (l1 ++ l2) = tally f l1 + tally f l2.
Proof. unfold tally. rewrite List.filter_app, length_app. lia. Qed.

Lemma tally_zero (f : Person -> bool) (l : list Person) :
  tally f l = 0 -> Forall (fun x => f x = false) l.
Proof.
  induction l as [|x l IH]; [constructor|].
  rewrite tally_cons. pose proof (tally_bounds f l) as Hb.
  destruct (f x) eqn:E; [lia|].
  intros H0. constructor; [exact E | apply IH; lia].
Qed.

Lemma tally_related (f g : Person -> bool) (l l' : list Person) :
  Forall2 (fun x y => f y = true -> g x = true) l l' ->
  tally f l' <= tally g l.
Proof.
  induction 1 as [|x y l l' Hxy _ IH]; [reflexivity|].
  rewrite !tally_cons. destruct (f y); [rewrite Hxy by reflexivity | destruct (g x)]; lia.
Qed.

Lemma updateState_sick_before (x : Person) :
  isInfected (updateState x) = true -> isInfected x = true.
Proof.
  intros H. destruct (isInfected x) eqn:E; [reflexivity|].
  rewrite updateState_not_sick in H by exact E. congruence.
Qed.

Lemma updateState_keeps_recovered (x : Person) :
  isRecovered x = true -> isRecovered (updateState x) = true.
Proof.
  intros H. now rewrite updateState_not_sick by (now apply recovered_not_sick).
Qed.

Lemma updates_without_sick (l : list Person) :
  tally isInfected l = 0 -> map updateState l = l.
Proof.
  intros H. apply tally_zero in H. induction H as [|x l Hx _ IH]; [reflexivity|].
  simpl. now rewrite updateState_not_sick, IH.
Qed.

Lemma updates_keep_susceptible (l : list Person) :
  tally isSusceptible (map updateState l) = tally isSusceptible l.
Proof.
  induction l as [|x l IH]; [reflexivity|].
  cbn [map]. now rewrite !tally_cons, updateState_susceptible, IH.
Qed.

Lemma nobody_transmits (l : list Person) (n : nat) :
  tally isInfected l = 0 -> forall j, List.filter (infected_at l) (seq j n) = [].
Proof.
  intros H. apply tally_zero in H.
  induction n as [|n IH]; intros j; [reflexivity|].
  simpl. rewrite IH. unfold infected_at.
  destruct (l !! j) as [who|] eqn:E; [|reflexivity].
  now rewrite (proj1 (Forall_lookup _ _) H j who E).
Qed.

Lemma empty_draws (es : list (nat * list nat)) :
  Forall (fun e => snd e = []) es -> concat (map snd es) = [].
Proof. induction 1 as [|e es He _ IH]; [reflexivity|]. simpl. now rewrite He, IH. Qed.

(** When no contact is drawn, nobody is put in [newlyInfected] and the call
    returns whatever the configured duration. *)
Lemma simulateOneDay_quiet (rd : nat -> mt19937) (p : Population) (s : dayState) :
  dayLoop rd p = Some s ->
  cohort s = set_population (map updateState (population p)) p ->
  newly s = [] ->
  simulateOneDay rd p
  = Returned (updateCounts (set_day (to_int (day p + 1))
                (set_population (map updateState (population p)) p))).
Proof.
  intros E Hc Hn. unfold simulateOneDay. rewrite E, Hn, Hc. reflexivity.
Qed.

End Compartments.

(** X3. During one [simulateOneDay] (positive duration) a member that was
    not infected at the start and is infected at the end was susceptible, was
    drawn as a contact during that call, and carries the full configured
    duration. *)
Theorem infection_only_through_contact (rd : nat -> mt19937) (p : Population) :
  Z.of_nat (length (population p)) <= INT_MAX ->
  0 < infectionDuration p ->
  exists s p',
    dayLoop rd p = Some s /\
    simulateOneDay rd p = Returned p' /\
    forall k who who',
      population p !! k = Some who ->
      population p' !! k = Some who' ->
      isInfected who = false -> isInfected who' = true ->
      isSusceptible who = true /\
      In k (contactsOfDay s) /\
      who' = freshly_infected (infectionDuration p).
Proof.
  intros Hint Hd.
  destruct (simulateOneDay_valid rd p Hint Hd) as (s & l & E & _ & _ & Eday & _ & Hl).
  destruct (dayLoop_selection rd p s E) as (Hincl & _ & _).
  eexists s, _. split; [exact E | split; [exact Eday|]].
  rewrite population_updateCounts. simpl.
  intros k who who' Hk Hk' Hbefore Hafter.
  destruct (Hl k who Hk) as [Hin Hout].
  destruct (isSusceptible who) eqn:Hs.
  - destruct (in_dec Nat.eq_dec k (newly s)) as [Hsel|Hsel].
    + rewrite Hin in Hk' by auto. injection Hk' as <-. auto.
    + rewrite Hout in Hk' by auto. injection Hk' as <-.
      apply updateState_sick_before in Hafter. congruence.
  - rewrite Hout in Hk' by auto. injection Hk' as <-.
    apply updateState_sick_before in Hafter. congruence.
Qed.

Lemma infection_only_through_contact_witness :
  exists s p',
    dayLoop (fun _ => engine_of [1; 0]) last_day_pair = Some s /\
    simulateOneDay (fun _ => engine_of [1; 0]) last_day_pair = Returned p' /\
    In 1%nat (contactsOfDay s).
Proof.
  destruct (infection_only_through_contact (fun _ => engine_of [1; 0]) last_day_pair)
    as (s & p' & E & Eday & H).
  - vm_compute. discriminate.
  - reflexivity.
  - exists s, p'. split; [exact E | split; [exact Eday|]].
    apply (H 1%nat Person_new (mkPerson 3 "sick")); try reflexivity.
    pose proof Eday as E0. vm_compute in E0. injection E0 as <-. reflexivity.
Defined.

(** X4. With [contactsPerDay <= 0], with a single member, or with a negative
    [infectionProbability], [simulateOneDay] returns (whatever the
    configured duration), every member ends as its own [updateState] leaves
    it, the number of susceptible members is unchanged and the number of
    infected members does not grow. *)
Theorem no_transmission_without_contacts (rd : nat -> mt19937) (p : Population) :
  Z.of_nat (length (population p)) <= INT_MAX ->
  contactsPerDay p <= 0 \/ length (population p) = 1%nat
    \/ (infectionProbability p < 0)%Q ->
  exists p',
    simulateOneDay rd p = Returned p' /\
    population p' = map updateState (population p) /\
    tally isSusceptible (population p') = tally isSusceptible (population p) /\
    tally isInfected (population p') <= tally isInfected (population p).
Proof.
  intros Hint Hquiet.
  destruct (dayLoop_spec rd p Hint) as (ns & es & E & _ & _ & Hds).
  destruct (dayLoop_selection rd p _ E) as (Hincl & Hneg & _).
  cbn [newly] in Hincl, Hneg. unfold contactsOfDay in Hincl. cbn [contactLog] in Hincl.
  assert (Hns : ns = []).
  { destruct Hquiet as [Hc | [Hone | Hq]]; [| |now apply Hneg].
    all: rewrite empty_draws in Hincl;
      [destruct ns as [|k ns]; [reflexivity | destruct (Hincl k); now left]|].
    all: eapply Forall_impl; [exact Hds|]; intros e [Hlen _].
    all: unfold contactsDrawn in Hlen; destruct (snd e); [reflexivity|].
    all: simpl length in Hlen; lia. }
  eexists. split; [|split; [|split]].
  - eapply simulateOneDay_quiet; [exact E | reflexivity | exact Hns].
  - now rewrite population_updateCounts.
  - rewrite population_updateCounts. simpl. apply updates_keep_susceptible.
  - rewrite population_updateCounts. simpl. apply tally_related.
    apply Forall2_fmap_r, Forall_Forall2_diag, Forall_forall.
    intros x _. exact (updateState_sick_before x).
Qed.

Lemma no_transmission_without_contacts_witness :
  exists p',
    simulateOneDay (fun _ => engine_of [1; 0])
      (setContactsPerDay 0 trio_six_contacts) = Returned p' /\
    population p' = [mkPerson 2 "sick"; Person_new; Person_new].
Proof.
  destruct (no_transmission_without_contacts (fun _ => engine_of [1; 0])
              (setContactsPerDay 0 trio_six_contacts)) as (p' & E & Hp & _).
  - vm_compute. discriminate.
  - left. simpl. lia.
  - exists p'. split; [exact E|]. rewrite Hp. reflexivity.
Defined.

(** X5. Once no member is infected, [simulateOneDay] changes no member: it
    returns (whatever the configuration), the vector is the same, the day
    counter has advanced and [getInfectedCount] is 0. *)
Theorem ended_epidemic_stays_ended (rd : nat -> mt19937) (p : Population) :
  Z.of_nat (length (population p)) <= INT_MAX ->
  tally isInfected (population p) = 0 ->
  exists p',
    simulateOneDay rd p = Returned p' /\
    population p' = population p /\
    getInfectedCount p' = 0 /\
    getCurrentDay p' = to_int (getCurrentDay p + 1).
Proof.
  intros Hint Hnone.
  destruct (dayLoop_spec rd p Hint) as (ns & es & E & _ & Hes & _).
  destruct (dayLoop_selection rd p _ E) as (Hincl & _ & _).
  cbn [newly] in Hincl. unfold contactsOfDay in Hincl. cbn [contactLog] in Hincl.
  rewrite nobody_transmits in Hes by exact Hnone.
  apply map_eq_nil in Hes. subst es.
  assert (Hns : ns = [])
    by (destruct ns as [|k ns]; [reflexivity | destruct (Hincl k); now left]).
  rewrite (simulateOneDay_quiet rd p _ E eq_refl Hns).
  rewrite (updates_without_sick _ Hnone), set_population_same.
  eexists. split; [reflexivity|].
  rewrite updateCounts_exact by exact Hint.
  cbn -[tally]. auto.
Qed.

Lemma ended_epidemic_stays_ended_witness :
  exists p',
    simulateOneDay (fun _ => engine_of [5; 5])
      (mkPopulation 2 7 0 1 1 1 4 0 [Person_new; mkPerson 0 "recovered"])
    = Returned p' /\
    population p' = [Person_new; mkPerson 0 "recovered"].
Proof.
  destruct (ended_epidemic_stays_ended (fun _ => engine_of [5; 5])
              (mkPopulation 2 7 0 1 1 1 4 0 [Person_new; mkPerson 0 "recovered"]))
    as (p' & E & Hp & _).
  - vm_compute. discriminate.
  - reflexivity.
  - exists p'. split; [exact E | exact Hp].
Defined.

(** X6. With [infectionProbability >= 1] (and a positive duration) every
    contact drawn during [simulateOneDay] that was susceptible at the start
    of the call ends the call infected with the full duration. *)
Theorem certain_transmission (rd : nat -> mt19937) (p : Population) :
  Z.of_nat (length (population p)) <= INT_MAX ->
  0 < infectionDuration p ->
  (1 <= infectionProbability p)%Q ->
  exists s p',
    dayLoop rd p = Some s /\
    simulateOneDay rd p = Returned p' /\
    forall k who,
      In k (contactsOfDay s) ->
      population p !! k = Some who -> isSusceptible who = true ->
      population p' !! k = Some (freshly_infected (infectionDuration p)).
Proof.
  intros Hint Hd Hq.
  destruct (simulateOneDay_valid rd p Hint Hd) as (s & l & E & _ & _ & Eday & _ & Hl).
  destruct (dayLoop_selection rd p s E) as (_ & _ & Hone).
  eexists s, _. split; [exact E | split; [exact Eday|]].
  rewrite population_updateCounts. simpl.
  intros k who Hk Hwho Hs. apply (Hl k who Hwho); [exact Hs|].
  rewrite (Hone Hq). apply filter_In. split; [exact Hk|].
  unfold susceptibleb. now rewrite Hwho.
Qed.

Lemma certain_transmission_witness :
  exists s p',
    dayLoop (fun _ => engine_of [2; 9; 1; 9]) trio_six_contacts = Some s /\
    simulateOneDay (fun _ => engine_of [2; 9; 1; 9]) trio_six_contacts = Returned p' /\
    contactsOfDay s = [2%nat; 1%nat] /\
    population p' !! 2%nat = Some (mkPerson 3 "sick").
Proof.
  destruct (certain_transmission (fun _ => engine_of [2; 9; 1; 9]) trio_six_contacts)
    as (s & p' & E & Eday & H).
  - vm_compute. discriminate.
  - reflexivity.
  - vm_compute. discriminate.
  - exists s, p'. split; [exact E | split; [exact Eday|]].
    pose proof E as E0. vm_compute in E0. injection E0 as <-.
    split; [reflexivity|].
    apply (H 2%nat Person_new); [left; reflexivity | reflexivity | reflexivity].
Defined.

Section OneDayRelation.

(** How each member ends a returning [simulateOneDay]. *)
Lemma day_relation (rd : nat -> mt19937) (p p' : Population) :
  Z.of_nat (length (population p)) <= INT_MAX ->
  simulateOneDay rd p = Returned p' ->
  (exists l, p' = updateCounts (set_day (to_int (day p + 1)) (set_population l p))) /\
  Forall2 (fun x y => y = updateState x \/
                      (isSusceptible x = true /\
                       y = freshly_infected (infectionDuration p)))
          (population p) (population p').
Proof.
  intros Hint Hret. destruct (Z.le_gt_cases (infectionDuration p) 0) as [Hd|Hd].
  - destruct (simulateOneDay_invalid rd p Hint Hd) as [E|E];
      rewrite E in Hret; [|discriminate].
    injection Hret as <-. split; [eauto|].
    rewrite population_updateCounts. simpl.
    apply Forall2_fmap_r, Forall_Forall2_diag, Forall_forall. intros x _. now left.
  - destruct (simulateOneDay_valid rd p Hint ltac:(lia))
      as (s & l & _ & _ & _ & E & Hlen & Hl).
    rewrite E in Hret. injection Hret as <-. split; [eauto|].
    rewrite population_updateCounts. simpl.
    apply Forall2_same_length_lookup. split; [now rewrite Hlen|].
    intros k x y Hx Hy. destruct (Hl k x Hx) as [Hin Hout].
    destruct (isSusceptible x) eqn:Hs.
    + destruct (in_dec Nat.eq_dec k (newly s)) as [Hsel|Hsel].
      * rewrite Hin in Hy by auto. injection Hy as <-. now right.
      * rewrite Hout in Hy by auto. injection Hy as <-. now left.
    + rewrite Hout in Hy by auto. injection Hy as <-. now left.
Qed.

Lemma tally_insert (f : Person -> bool) (l : list Person) :
  forall k x y, l !! k = Some x ->
    tally f (<[k := y]> l) = tally f l - Z.b2z (f x) + Z.b2z (f y).
Proof.
  induction l as [|a l IH]; intros k x y Hk; [discriminate|].
  destruct k as [|k].
  - injection Hk as ->. change (<[0%nat := y]> (x :: l)) with (y :: l).
    rewrite !tally_cons. destruct (f x), (f y); simpl; lia.
  - change (<[S k := y]> (a :: l)) with (a :: <[k := y]> l).
    rewrite !tally_cons, (IH k x y Hk). lia.
Qed.

End OneDayRelation.

(** X7. Over a returning [simulateOneDay] on a well-formed object the number
    of susceptible members never grows, the number of recovered members
    never shrinks, and the three numbers still add up to the population
    size. *)
Theorem compartments_move_one_way (rd : nat -> mt19937) (p p' : Population) :
  consistent p ->
  simulateOneDay rd p = Returned p' ->
  tally isSusceptible (population p') <= tally isSusceptible (population p) /\
  tally isRecovered (population p) <= tally isRecovered (population p') /\
  tally isSusceptible (population p') + tally isInfected (population p')
    + tally isRecovered (population p') = getPopulationSize p.
Proof.
  intros Hc Hret. pose proof Hc as (Hlen & Hmax & Hknown).
  destruct (day_relation rd p p' ltac:(lia) Hret) as [_ Hrel].
  split; [|split].
  - apply tally_related. eapply Forall2_impl; [exact Hrel|].
    intros x y [-> | [Hs ->]]; [now rewrite updateState_susceptible | discriminate].
  - apply tally_related. apply Forall2_flip. eapply Forall2_impl; [exact Hrel|].
    intros x y [-> | [Hs ->]] Hr; [now apply updateState_keeps_recovered|].
    apply recovered_not_susceptible in Hr. congruence.
  - unfold getPopulationSize. rewrite <- Hlen, (Forall2_length _ _ _ Hrel).
    rewrite <- (tally_partition (population p')); [lia|].
    clear - Hrel Hknown. induction Hrel as [|x y l l' Hxy _ IH]; [constructor|].
    apply Forall_cons in Hknown as [Hx Hl]. constructor; [|now apply IH].
    destruct Hxy as [-> | [_ ->]]; [now apply updateState_known | reflexivity].
Qed.

Lemma compartments_move_one_way_witness :
  tally isSusceptible [mkPerson 0 "recovered"; mkPerson 3 "sick"]
    <= tally isSusceptible (population last_day_pair) /\
  tally isRecovered (population last_day_pair)
    <= tally isRecovered [mkPerson 0 "recovered"; mkPerson 3 "sick"].
Proof.
  destruct (compartments_move_one_way (fun _ => engine_of [1; 0]) last_day_pair
              (mkPopulation 2 1 1 0 1 1 1 3
                 [mkPerson 0 "recovered"; mkPerson 3 "sick"]))
    as (H1 & H2 & _).
  - unfold consistent. simpl. split; [reflexivity | split; [unfold INT_MAX; lia|]].
    repeat constructor.
  - vm_compute. reflexivity.
  - split; [exact H1 | exact H2].
Defined.

(** X8. A returning [simulateOneDay] on a well-formed object leaves the
    cached counts equal to the numbers of members in each state, advances
    the day counter by one and changes neither the size nor the three
    configured parameters. *)
Theorem one_day_refreshes_counts (rd : nat -> mt19937) (p p' : Population) :
  consistent p ->
  simulateOneDay rd p = Returned p' ->
  observed p' = census (population p') /\
  getCurrentDay p' = to_int (getCurrentDay p + 1) /\
  getPopulationSize p' = getPopulationSize p /\
  getInfectionProbability p' = getInfectionProbability p /\
  getContactsPerDay p' = getContactsPerDay p /\
  getInfectionDuration p' = getInfectionDuration p.
Proof.
  intros Hc Hret. pose proof Hc as (Hlen & Hmax & Hknown).
  destruct (simulateOneDay_counts_exact rd p p' Hc Hret) as (Hs & Hi & Hr).
  destruct (day_relation rd p p' ltac:(lia) Hret) as [[l ->] _].
  split.
  - unfold observed, census. now rewrite Hs, Hi, Hr.
  - unfold updateCounts.
    destruct (countLoop _ (0, 0, 0)) as [[ci cs] cr]. repeat split.
Qed.

Lemma one_day_refreshes_counts_witness :
  observed (mkPopulation 2 1 1 0 1 1 1 3 [mkPerson 0 "recovered"; mkPerson 3 "sick"])
  = census [mkPerson 0 "recovered"; mkPerson 3 "sick"].
Proof.
  destruct (one_day_refreshes_counts (fun _ => engine_of [1; 0]) last_day_pair
              (mkPopulation 2 1 1 0 1 1 1 3
                 [mkPerson 0 "recovered"; mkPerson 3 "sick"]))
    as (H & _).
  - unfold consistent. simpl. split; [reflexivity | split; [unfold INT_MAX; lia|]].
    repeat constructor.
  - vm_compute. reflexivity.
  - exact H.
Defined.

(** X9. With [infectionDuration <= 0], [simulateOneDay] returns when nobody
    was selected for infection; when somebody was, it throws
    [invalid_argument] after every member's countdown update has been
    applied, with the day counter and the cached counts as before the call
    and nobody newly infected. *)
Theorem invalid_duration_throws_after_updates (rd : nat -> mt19937) (p : Population) :
  Z.of_nat (length (population p)) <= INT_MAX ->
  infectionDuration p <= 0 ->
  exists s,
    dayLoop rd p = Some s /\
    (newly s = [] -> exists p', simulateOneDay rd p = Returned p') /\
    (newly s <> [] ->
     exists p',
       simulateOneDay rd p = Thrown invalid_argument p' /\
       population p' = map updateState (population p) /\
       getCurrentDay p' = getCurrentDay p /\
       observed p' = observed p).
Proof.
  intros Hint Hd. destruct (dayLoop_spec rd p Hint) as (ns & es & E & Hns & _).
  eexists. split; [exact E|]. cbn [newly]. split.
  - intros ->. eexists. eapply simulateOneDay_quiet; [exact E | reflexivity..].
  - intros Hne. unfold simulateOneDay. rewrite E. cbn [newly cohort].
    destruct ns as [|k ns]; [congruence|].
    apply Forall_cons in Hns as [(who & Hwho & _) _].
    cbn [infectAll].
    rewrite (infectPerson_invalid k _ (updateState who)); [eauto | exact Hd |].
    simpl. now rewrite list_lookup_fmap, Hwho.
Qed.

Lemma invalid_duration_throws_after_updates_witness :
  exists p',
    simulateOneDay (fun _ => engine_of [1; 0])
      (setInfectionDuration 0 last_day_pair) = Thrown invalid_argument p' /\
    population p' = [mkPerson 0 "recovered"; Person_new] /\
    getCurrentDay p' = 0.
Proof.
  destruct (invalid_duration_throws_after_updates (fun _ => engine_of [1; 0])
              (setInfectionDuration 0 last_day_pair)) as (s & E & _ & H).
  - vm_compute. discriminate.
  - simpl. lia.
  - destruct H as (p' & Ethrow & Hpop & Hday & _).
    + vm_compute in E. injection E as <-. discriminate.
    + exists p'. split; [exact Ethrow | split; [rewrite Hpop; reflexivity | exact Hday]].
Defined.

(** The member [infectRandomPerson] selects. *)
Lemma infectRandomPerson_selected (gen : mt19937) (p : Population) :
  consistent p -> 1 <= size p -> 0 < infectionDuration p ->
  exists who,
    population p !! Z.to_nat (fst (uniform_int_distribution 0 (to_int (size p - 1)) gen))
      = Some who /\
    infectRandomPerson gen p
    = Returned (set_population
                  (<[Z.to_nat (fst (uniform_int_distribution 0
                                      (to_int (size p - 1)) gen))
                     := if isSusceptible who
                        then freshly_infected (infectionDuration p) else who]>
                     (population p)) p).
Proof.
  intros (Hlen & Hmax & _) Hsize Hd. unfold infectRandomPerson.
  assert (Hrange : 0 <= fst (uniform_int_distribution 0 (to_int (size p - 1)) gen)
                   <= size p - 1).
  { rewrite to_int_small by (unfold INT_MAX in *; lia).
    apply uniform_int_in_range. lia. }
  destruct (uniform_int_distribution 0 (to_int (size p - 1)) gen) as [index gen'].
  cbn [fst] in *.
  assert (Hlt : (Z.to_nat index < length (population p))%nat) by lia.
  destruct (lookup_lt_is_Some_2 _ _ Hlt) as [who Hwho].
  exists who. split; [exact Hwho | now apply infectPerson_valid].
Qed.

(** X10. On a well-formed, non-empty population with a positive duration,
    [infectRandomPerson] returns and touches only the member the
    distribution selects: if that member is not susceptible the object is
    unchanged (the seed is wasted), otherwise it becomes infected with the
    configured duration, one member moves from susceptible to infected, and
    the cached counts are left as they were. *)
Theorem seeding_touches_one_member (gen : mt19937) (p : Population) :
  consistent p -> 1 <= size p -> 0 < infectionDuration p ->
  exists p' who,
    infectRandomPerson gen p = Returned p' /\
    population p !! Z.to_nat (fst (uniform_int_distribution 0 (to_int (size p - 1)) gen))
      = Some who /\
    (isSusceptible who = false -> p' = p) /\
    (isSusceptible who = true ->
     population p'
     = <[Z.to_nat (fst (uniform_int_distribution 0 (to_int (size p - 1)) gen))
         := freshly_infected (infectionDuration p)]> (population p) /\
     tally isSusceptible (population p') = tally isSusceptible (population p) - 1 /\
     tally isInfected (population p') = tally isInfected (population p) + 1 /\
     tally isRecovered (population p') = tally isRecovered (population p) /\
     observed p' = observed p).
Proof.
  intros Hc Hsize Hd.
  destruct (infectRandomPerson_selected gen p Hc Hsize Hd) as (who & Hk & E).
  eexists _, who. split; [exact E | split; [exact Hk | split]].
  - intros ->. now rewrite list_insert_id, set_population_same.
  - intros Hs. rewrite Hs. cbn [population set_population].
    rewrite !(tally_insert _ _ _ who _ Hk), Hs.
    rewrite (susceptible_not_sick who Hs).
    assert (isRecovered who = false) as ->.
    { destruct (isRecovered who) eqn:Hr; [|reflexivity].
      apply recovered_not_susceptible in Hr. congruence. }
    repeat split; simpl; lia.
Qed.

Lemma seeding_touches_one_member_witness :
  infectRandomPerson (engine_of [0]) last_day_pair = Returned last_day_pair.
Proof.
  destruct (seeding_touches_one_member (engine_of [0]) last_day_pair)
    as (p' & who & E & Hk & Hwaste & _).
  - unfold consistent. simpl. split; [reflexivity | split; [unfold INT_MAX; lia|]].
    repeat constructor.
  - simpl. lia.
  - simpl. lia.
  - rewrite E. f_equal. apply Hwaste.
    vm_compute in Hk. injection Hk as <-. reflexivity.
Defined.

(** * The simulation driver *)

Section Driver.

Lemma isValid_bounds (cfg : Config.SimulationConfig) :
  Config.isValid cfg = true ->
  0 < Config.populationSize cfg /\
  0 < Config.initialInfections cfg <= Config.populationSize cfg /\
  0 < Config.simulationDays cfg /\
  0 <= Config.contactsPerDay cfg /\
  0 < Config.infectionDuration cfg.
Proof.
  unfold Config.isValid. intros H.
  repeat (apply andb_prop in H; destruct H as [H ?]).
  repeat match goal with
         | H : (_ <? _) = true |- _ => apply Z.ltb_lt in H
         | H : (_ <=? _) = true |- _ => apply Z.leb_le in H
         end.
  lia.
Qed.

Lemma new_valid (cfg : Config.SimulationConfig) :
  Config.isValid cfg = true ->
  Config.populationSize cfg <= INT_MAX ->
  exists sim,
    Simulation.new cfg = inr sim /\
    seeding cfg 0 sim /\
    population (Simulation.population sim)
    = replicate (Z.to_nat (Config.populationSize cfg)) Person_new /\
    getInfectionProbability (Simulation.population sim)
    = Config.infectionProbability cfg /\
    getContactsPerDay (Simulation.population sim) = Config.contactsPerDay cfg /\
    getCurrentDay (Simulation.population sim) = 0.
Proof.
  intros Hvalid Hmax. pose proof (isValid_bounds cfg Hvalid) as (HN & _).
  unfold Simulation.new, Population_new.
  destruct (Z.ltb_spec (Config.populationSize cfg) 0); [lia|].
  rewrite Hvalid. cbn [negb]. eexists. split; [reflexivity|].
  cbn [Simulation.population population setInfectionDuration setContactsPerDay
       setInfectionProbability getInfectionProbability getContactsPerDay
       getCurrentDay infectionProbability contactsPerDay day].
  split; [|auto].
  unfold seeding, running, consistent, partitioned, observed.
  cbn [Simulation.population Simulation.config population size
       setInfectionDuration setContactsPerDay setInfectionProbability
       getSusceptibleCount getInfectedCount getRecoveredCount getPopulationSize
       countSusceptible countInfected countRecovered infectionDuration].
  rewrite tally_replicate, length_replicate.
  change (isInfected Person_new) with false. cbv iota.
  repeat split; try lia; try reflexivity; try assumption.
  - apply Forall_replicate. reflexivity.
  - apply Forall_replicate. now left.
Qed.

Lemma tally_positive (f : Person -> bool) (l : list Person) (k : nat) (x : Person) :
  l !! k = Some x -> f x = true -> 1 <= tally f l.
Proof.
  intros Hk Hx. pose proof (tally_bounds f l) as Hb.
  destruct (Z.eq_dec (tally f l) 0) as [E|E]; [|lia].
  apply tally_zero in E.
  rewrite (proj1 (Forall_lookup _ _) E k x Hk) in Hx. discriminate.
Qed.

Lemma seedLoop_spec (cfg : Config.SimulationConfig) (seeds : Z -> mt19937) (fuel : nat) :
  Config.populationSize cfg <= INT_MAX ->
  forall i sim,
    seeding cfg i sim -> 0 <= i ->
    Z.of_nat fuel = Config.initialInfections cfg - i ->
    exists sim',
      Simulation.seedLoop fuel i seeds sim = Returned sim' /\
      seeding cfg (Config.initialInfections cfg) sim'.
Proof.
  intros Hmax. induction fuel as [|fuel IH]; intros i sim Hseed Hi Hfuel;
    pose proof Hseed as ((Hcfg & Hvalid & Hc & Hp & Hsize & Hdur & Hcounts)
                         & Hobs & Hmembers & Hupper & Hlower);
    pose proof (isValid_bounds cfg Hvalid) as (HN & Hinit & _ & _ & Hd);
    cbn [Simulation.seedLoop]; rewrite Hcfg.
  - destruct (Z.ltb_spec i (Config.initialInfections cfg)); [lia|].
    exists sim. split; [reflexivity|].
    assert (Config.initialInfections cfg = i) as -> by lia. exact Hseed.
  - destruct (Z.ltb_spec i (Config.initialInfections cfg)); [|lia].
    destruct (infectRandomPerson_selected (seeds i) (Simulation.population sim)
                Hc ltac:(lia) ltac:(lia)) as (who & Hk & E).
    rewrite E. rewrite to_int_small by (unfold INT_MAX in *; lia).
    apply IH; [|lia|lia].
    set (k := Z.to_nat _) in *.
    set (w := if isSusceptible who then _ else who).
    assert (Hwho : who = Person_new \/
                   who = freshly_infected (Config.infectionDuration cfg))
      by (eapply (proj1 (Forall_lookup _ _) Hmembers); eauto).
    assert (Hw : w = freshly_infected (Config.infectionDuration cfg) /\
                 (isInfected who = false \/ w = who)).
    { subst w. rewrite Hdur. destruct Hwho as [-> | ->]; simpl; auto. }
    destruct Hw as [Hw Hw'].
    pose proof Hc as (Hlen & Hsz & Hknown).
    destruct Hcounts as (Hs0 & Hi0 & Hr0).
    unfold partitioned, getPopulationSize, getSusceptibleCount, getInfectedCount,
      getRecoveredCount in Hp, Hs0, Hi0, Hr0.
    unfold observed, getSusceptibleCount, getInfectedCount, getRecoveredCount in Hobs.
    unfold seeding, running, consistent, partitioned, observed.
    cbn [Simulation.population Simulation.config population size set_population
         getSusceptibleCount getInfectedCount getRecoveredCount getPopulationSize
         countSusceptible countInfected countRecovered infectionDuration].
    rewrite length_insert, (tally_insert _ _ k who w Hk), Hw.
    change (isInfected (freshly_infected (Config.infectionDuration cfg))) with true.
    pose proof (tally_bounds isInfected (population (Simulation.population sim))).
    repeat split; try assumption; try lia.
    + apply Forall_insert; [exact Hknown | reflexivity].
    + apply Forall_insert; [exact Hmembers | now right].
    + destruct (isInfected who); simpl; lia.
    + intros _. destruct (isInfected who) eqn:Ew; simpl; [|lia].
      pose proof (tally_positive isInfected _ k who Hk Ew). lia.
Qed.

Lemma simulationLoop_spec (cfg : Config.SimulationConfig)
    (rd : Z -> nat -> mt19937) (fuel : nat) :
  Config.simulationDays cfg < INT_MAX ->
  forall day sim cout,
    running cfg sim -> 1 <= day ->
    Z.of_nat fuel = Config.simulationDays cfg + 1 - day ->
    exists sim' rest,
      Simulation.simulationLoop fuel day rd sim cout = Returned (sim', cout ++ rest) /\
      running cfg sim' /\
      daily_trace (Config.populationSize cfg) (Config.simulationDays cfg) day rest.
Proof.
  intros Hmax. induction fuel as [|fuel IH]; intros d sim cout Hrun Hd Hfuel;
    pose proof Hrun as (Hcfg & Hvalid & Hc & Hp & Hsize & Hdur & Hcounts);
    pose proof (isValid_bounds cfg Hvalid) as (HN & _ & _ & _ & Hdpos);
    cbn [Simulation.simulationLoop]; rewrite Hcfg.
  - destruct (Z.leb_spec d (Config.simulationDays cfg)); [lia|].
    exists sim, []. rewrite app_nil_r. split; [reflexivity | split; [exact Hrun|]].
    now constructor.
  - destruct (Z.leb_spec d (Config.simulationDays cfg)); [|lia].
    pose proof Hc as (Hlen & Hsz & Hknown).
    destruct (simulateOneDay_valid (rd d) (Simulation.population sim)
                ltac:(lia) ltac:(lia)) as (s & l & _ & _ & _ & E & _ & _).
    pose proof (cohort_step_invariant (CallSimulateOneDay (rd d)) _ Hc Hp) as Hinv.
    pose proof (simulateOneDay_counts_exact (rd d) _ _ Hc E) as (Hs & Hi & Hr).
    cbn [cohort_step] in Hinv. rewrite E in Hinv. destruct Hinv as (Hc' & Hp' & Hsize').
    rewrite E. cbn [Simulation.population].
    set (p' := updateCounts _) in *.
    assert (Hdur' : infectionDuration p' = Config.infectionDuration cfg).
    { subst p'. unfold updateCounts.
      destruct (countLoop _ (0, 0, 0)) as [[ci cs] cr]. exact Hdur. }
    pose proof (tally_bounds isSusceptible (population p')).
    pose proof (tally_bounds isInfected (population p')).
    pose proof (tally_bounds isRecovered (population p')).
    assert (Hrun' : running cfg {| Simulation.config := cfg; Simulation.population := p' |}).
    { unfold running. cbn [Simulation.population Simulation.config].
      split; [reflexivity|]. split; [exact Hvalid|]. split; [exact Hc'|].
      split; [exact Hp'|]. split; [lia|]. split; [exact Hdur'|]. lia. }
    unfold partitioned, getPopulationSize in Hp'.
    destruct (Z.eqb_spec (getInfectedCount p') 0) as [Hzero|Hnonzero].
    + eexists _, [_; _]. unfold Simulation.outputDailyStats.
      cbn [Simulation.population]. rewrite <- app_assoc.
      split; [reflexivity | split; [exact Hrun'|]].
      rewrite Hzero. apply trace_ended; lia.
    + rewrite to_int_small by (unfold INT_MAX in *; lia).
      destruct (IH (d + 1) {| Simulation.config := cfg; Simulation.population := p' |}
                  (Simulation.outputDailyStats d
                     {| Simulation.config := cfg; Simulation.population := p' |} cout)
                  Hrun' ltac:(lia) ltac:(lia)) as (sim' & rest & E' & Hrun'' & Htrace).
      exists sim', (DailyStats d (getSusceptibleCount p') (getInfectedCount p')
                      (getRecoveredCount p') :: rest).
      rewrite E'. unfold Simulation.outputDailyStats. cbn [Simulation.population].
      rewrite <- app_assoc.
      split; [reflexivity | split; [exact Hrun''|]].
      apply trace_next; try lia. exact Htrace.
Qed.

Lemma runSimulation_spec (cfg : Config.SimulationConfig)
    (seeds : Z -> mt19937) (rd : Z -> nat -> mt19937) :
  Config.isValid cfg = true ->
  Config.populationSize cfg <= INT_MAX ->
  Config.simulationDays cfg < INT_MAX ->
  exists sim sim' rest s r,
    Simulation.new cfg = inr sim /\
    Simulation.runSimulation seeds rd sim
    = Returned (sim',
                Header cfg :: DailyStats 0 (Config.populationSize cfg) 0 0
                :: rest ++ [FinalStatistics s r (Config.populationSize cfg - s)]) /\
    daily_trace (Config.populationSize cfg) (Config.simulationDays cfg) 1 rest /\
    0 <= s /\ 0 <= r /\ s + r <= Config.populationSize cfg.
Proof.
  intros Hvalid Hmax Hdays.
  pose proof (isValid_bounds cfg Hvalid) as (HN & Hinit & Hsim & _ & _).
  destruct (new_valid cfg Hvalid Hmax) as (sim & Enew & Hseed & _).
  destruct (seedLoop_spec cfg seeds (Z.to_nat (Config.initialInfections cfg)) Hmax
              0 sim Hseed ltac:(lia) ltac:(lia)) as (sim1 & Einit & Hseed1).
  destruct Hseed1 as (Hrun1 & Hobs1 & _).
  pose proof Hrun1 as (Hcfg1 & _).
  destruct Hseed as ((Hcfg & _) & _).
  destruct (simulationLoop_spec cfg rd (Z.to_nat (Config.simulationDays cfg)) Hdays
              1 sim1
              (Simulation.outputDailyStats 0 sim1 [Header cfg])
              Hrun1 ltac:(lia) ltac:(lia)) as (sim2 & rest & Eloop & Hrun2 & Htrace).
  pose proof Hrun2 as (Hcfg2 & _ & _ & Hp2 & Hsize2 & _ & Hs2 & Hi2 & Hr2).
  unfold partitioned, getPopulationSize in Hp2.
  exists sim, sim2, rest, (getSusceptibleCount (Simulation.population sim2)),
    (getRecoveredCount (Simulation.population sim2)).
  split; [exact Enew|]. split; [|split; [exact Htrace | lia]].
  unfold Simulation.runSimulation, Simulation.initializeSimulation.
  rewrite Hcfg, Einit, Hcfg1, Eloop, Hcfg2.
  rewrite to_int_small by (unfold INT_MAX in *; lia).
  unfold Simulation.outputDailyStats. injection Hobs1 as -> -> ->.
  reflexivity.
Qed.

End Driver.

(** X11. Constructing a simulation fails with [length_error] for a negative
    population size (the population member is built before the
    configuration is validated), fails with [invalid_argument] for any other
    invalid configuration, and for a valid one gives a population of
    [populationSize] susceptible members carrying the three configured
    parameters, on day 0, with counts S=N, I=0, R=0. *)
Theorem simulation_construction (cfg : Config.SimulationConfig) :
  (Config.populationSize cfg < 0 -> Simulation.new cfg = inl length_error) /\
  (0 <= Config.populationSize cfg -> Config.isValid cfg = false ->
   Simulation.new cfg = inl invalid_argument) /\
  (Config.isValid cfg = true -> Config.populationSize cfg <= INT_MAX ->
   exists sim,
     Simulation.new cfg = inr sim /\
     Simulation.config sim = cfg /\
     population (Simulation.getPopulation sim)
     = replicate (Z.to_nat (Config.populationSize cfg)) Person_new /\
     observed (Simulation.getPopulation sim) = (Config.populationSize cfg, 0, 0) /\
     getCurrentDay (Simulation.getPopulation sim) = 0 /\
     getInfectionProbability (Simulation.getPopulation sim)
     = Config.infectionProbability cfg /\
     getContactsPerDay (Simulation.getPopulation sim) = Config.contactsPerDay cfg /\
     getInfectionDuration (Simulation.getPopulation sim)
     = Config.infectionDuration cfg).
Proof.
  split; [|split].
  - intros HN. unfold Simulation.new, Population_new.
    destruct (Z.ltb_spec (Config.populationSize cfg) 0); [reflexivity | lia].
  - intros HN Hinvalid. unfold Simulation.new, Population_new.
    destruct (Z.ltb_spec (Config.populationSize cfg) 0); [lia|].
    now rewrite Hinvalid.
  - intros Hvalid Hmax.
    destruct (new_valid cfg Hvalid Hmax)
      as (sim & E & ((Hcfg & _ & _ & _ & _ & Hdur & _) & Hobs & _) & Hpop & Hq & Hc & Hday).
    exists sim. unfold Simulation.getPopulation, getInfectionDuration. auto 10.
Qed.

Lemma simulation_construction_witness :
  Simulation.new (Config.mkSimulationConfig (-1) 5 90 (1 # 2) 6 5) = inl length_error /\
  Simulation.new (Config.mkSimulationConfig 10 11 90 (1 # 2) 6 5) = inl invalid_argument /\
  exists sim, Simulation.new Config.default = inr sim /\
              observed (Simulation.getPopulation sim) = (1000, 0, 0).
Proof.
  destruct (simulation_construction (Config.mkSimulationConfig (-1) 5 90 (1 # 2) 6 5))
    as (H1 & _).
  destruct (simulation_construction (Config.mkSimulationConfig 10 11 90 (1 # 2) 6 5))
    as (_ & H2 & _).
  destruct (simulation_construction Config.default) as (_ & _ & H3).
  split; [apply H1; simpl; lia|]. split; [apply H2; [simpl; lia | reflexivity]|].
  destruct H3 as (sim & E & _ & _ & Hobs & _);
    [reflexivity | unfold INT_MAX; simpl; lia |].
  exists sim. split; [exact E | exact Hobs].
Defined.

(** X12. On a simulation built from a valid configuration,
    [initializeSimulation] returns with at least one and at most
    [initialInfections] members infected, each with the full configured
    duration, every other member untouched, and the cached counts still
    S=N, I=0, R=0. *)
Theorem initial_infections_seeded
    (cfg : Config.SimulationConfig) (seeds : Z -> mt19937) :
  Config.isValid cfg = true ->
  Config.populationSize cfg <= INT_MAX ->
  exists sim sim',
    Simulation.new cfg = inr sim /\
    Simulation.initializeSimulation seeds sim = Returned sim' /\
    1 <= tally isInfected (population (Simulation.getPopulation sim'))
      <= Config.initialInfections cfg /\
    Forall (fun x => x = Person_new \/
                     x = freshly_infected (Config.infectionDuration cfg))
           (population (Simulation.getPopulation sim')) /\
    observed (Simulation.getPopulation sim') = (Config.populationSize cfg, 0, 0).
Proof.
  intros Hvalid Hmax.
  pose proof (isValid_bounds cfg Hvalid) as (HN & Hinit & _).
  destruct (new_valid cfg Hvalid Hmax) as (sim & Enew & Hseed & _).
  destruct (seedLoop_spec cfg seeds (Z.to_nat (Config.initialInfections cfg)) Hmax
              0 sim Hseed ltac:(lia) ltac:(lia))
    as (sim' & Einit & _ & Hobs & Hmembers & Hupper & Hlower).
  destruct Hseed as ((Hcfg & _) & _).
  exists sim, sim'. unfold Simulation.initializeSimulation, Simulation.getPopulation.
  rewrite Hcfg. split; [exact Enew | split; [exact Einit|]].
  split; [split; [apply Hlower; lia | exact Hupper] | split; assumption].
Qed.

Lemma initial_infections_seeded_witness :
  exists sim sim',
    Simulation.new (Config.mkSimulationConfig 3 2 4 1 1 2) = inr sim /\
    Simulation.initializeSimulation (fun _ => engine_of [1]) sim = Returned sim' /\
    population (Simulation.getPopulation sim')
    = [Person_new; mkPerson 2 "sick"; Person_new].
Proof.
  destruct (initial_infections_seeded (Config.mkSimulationConfig 3 2 4 1 1 2)
              (fun _ => engine_of [1])) as (sim & sim' & E & Einit & _).
  - reflexivity.
  - unfold INT_MAX. simpl. lia.
  - exists sim, sim'. split; [exact E | split; [exact Einit|]].
    vm_compute in E. injection E as <-.
    vm_compute in Einit. injection Einit as <-. reflexivity.
Defined.

(** X13. For a valid configuration with [simulationDays < INT_MAX],
    [runSimulation] returns and prints, in order: the header; a day-0 report
    that always reads S=N, I=0, R=0; one report per day from day 1 on, each
    adding up to N, the run going on to the next day only after a report
    with infected members and at most until [simulationDays], a report
    without infected members being followed by the end-of-epidemic notice;
    and the final statistics. *)
Theorem run_prints_daily_trace
    (cfg : Config.SimulationConfig) (seeds : Z -> mt19937) (rd : Z -> nat -> mt19937) :
  Config.isValid cfg = true ->
  Config.populationSize cfg <= INT_MAX ->
  Config.simulationDays cfg < INT_MAX ->
  exists sim sim' rest s r,
    Simulation.new cfg = inr sim /\
    Simulation.runSimulation seeds rd sim
    = Returned (sim',
                Header cfg :: DailyStats 0 (Config.populationSize cfg) 0 0
                :: rest ++ [FinalStatistics s r (Config.populationSize cfg - s)]) /\
    daily_trace (Config.populationSize cfg) (Config.simulationDays cfg) 1 rest /\
    0 <= s /\ 0 <= r /\ s + r <= Config.populationSize cfg.
Proof. apply runSimulation_spec. Qed.

Lemma run_prints_daily_trace_witness :
  exists sim sim' rest s r,
    Simulation.new (Config.mkSimulationConfig 3 1 4 1 1 1) = inr sim /\
    Simulation.runSimulation (fun _ => engine_of [0]) (fun _ _ => engine_of [1; 0]) sim
    = Returned (sim',
                Header (Config.mkSimulationConfig 3 1 4 1 1 1) :: DailyStats 0 3 0 0
                :: rest ++ [FinalStatistics s r (3 - s)]) /\
    daily_trace 3 4 1 rest /\
    0 <= s /\ 0 <= r /\ s + r <= 3.
Proof.
  apply (run_prints_daily_trace (Config.mkSimulationConfig 3 1 4 1 1 1)
           (fun _ => engine_of [0]) (fun _ _ => engine_of [1; 0])).
  - reflexivity.
  - unfold INT_MAX. simpl. lia.
  - unfold INT_MAX. simpl. lia.
Defined.

(** X14. [main], which runs the default configuration, exits with status 0
    whatever the random engines return, having printed the header, the
    day-0 report S=1000, I=0, R=0, a well-formed sequence of at most 90
    daily reports and the final statistics. *)
Theorem main_exits_normally (seeds : Z -> mt19937) (rd : Z -> nat -> mt19937) :
  exists rest s r,
    main seeds rd
    = Some (0, Header Config.default :: DailyStats 0 1000 0 0
               :: rest ++ [FinalStatistics s r (1000 - s)]) /\
    daily_trace 1000 90 1 rest.
Proof.
  destruct (runSimulation_spec Config.default seeds rd)
    as (sim & sim' & rest & s & r & Enew & Erun & Htrace & _).
  - reflexivity.
  - unfold INT_MAX. simpl. lia.
  - unfold INT_MAX. simpl. lia.
  - exists rest, s, r. unfold main. rewrite Enew, Erun. split; [reflexivity | exact Htrace].
Qed.

(** * The earlier implementation *)

Section LegacyPerson.

Lemma legacy_step_agrees (p : Person) (c : person_call) :
  (isInfected p = true -> 1 <= infectionDays p <= INT_MAX) ->
  match c with CallInfect d => 0 < d <= INT_MAX | CallUpdateState => True end ->
  Legacy.person_step p c = person_step p c /\
  (isInfected (person_step p c) = true ->
   1 <= infectionDays (person_step p c) <= INT_MAX).
Proof.
  intros Hp Hc. destruct c as [d|]; cbn [Legacy.person_step person_step].
  - unfold Legacy.infect, infect.
    destruct (Z.leb_spec d 0); [lia|].
    destruct (String.eqb (current p) "susceptible"); cbn [after_outcome];
      [split; [reflexivity | intros _; simpl; lia] | auto].
  - unfold Legacy.personCurrentState, updateState. unfold isInfected in Hp.
    destruct (String.eqb_spec (current p) "sick") as [E|E];
      [|split; [reflexivity|]; unfold isInfected; intros H';
        apply String.eqb_eq in H'; contradiction].
    specialize (Hp eq_refl).
    rewrite to_int_small by (unfold INT_MAX in *; lia).
    destruct (Z.leb_spec (infectionDays p - 1) 0);
      destruct (Z.eqb_spec (infectionDays p - 1) 0); try lia.
    + split; [f_equal; lia | discriminate].
    + split; [reflexivity | intros _; simpl; lia].
Qed.

Lemma legacy_stays_sick (n : nat) :
  forall k, k <= 0 -> - 2 ^ 31 <= k - Z.of_nat n ->
    Legacy.person_run (replicate n CallUpdateState) (mkPerson k "sick")
    = mkPerson (k - Z.of_nat n) "sick".
Proof.
  induction n as [|n IH]; intros k Hk Hn.
  - unfold Legacy.person_run. cbn [replicate fold_left]. f_equal. lia.
  - unfold Legacy.person_run in *. cbn [replicate fold_left Legacy.person_step].
    unfold Legacy.personCurrentState at 1. cbn [current infectionDays].
    change (String.eqb "sick" "sick") with true. cbv iota.
    rewrite to_int_small by (unfold INT_MAX; lia).
    destruct (Z.eqb_spec (k - 1) 0); [lia|].
    rewrite IH by lia. f_equal. lia.
Qed.

End LegacyPerson.

(** X15. On every sequence of calls whose [infect] durations are positive
    [int]s, the person of Simulation.cpp ([currentState], [infect]) and the
    person of Person.cpp ([updateState], [infect]) go through the same
    states with the same countdowns. *)
Theorem legacy_person_agrees (calls : list person_call) :
  positive_durations calls ->
  Legacy.person_run calls Person_new = person_run calls Person_new.
Proof.
  unfold positive_durations, Legacy.person_run, person_run.
  assert (H : forall p,
    (isInfected p = true -> 1 <= infectionDays p <= INT_MAX) ->
    Forall (fun c => match c with
                     | CallInfect d => 0 < d <= INT_MAX
                     | CallUpdateState => True
                     end) calls ->
    fold_left Legacy.person_step calls p = fold_left person_step calls p).
  { induction calls as [|c calls IH]; intros p Hp Hcalls; [reflexivity|].
    apply Forall_cons in Hcalls as [Hc Hcalls].
    destruct (legacy_step_agrees p c Hp Hc) as [E Hp'].
    cbn [fold_left]. rewrite E. now apply IH. }
  apply H. discriminate.
Qed.

Lemma legacy_person_agrees_witness :
  Legacy.person_run [CallInfect 2; CallUpdateState; CallInfect 7; CallUpdateState]
    Person_new
  = mkPerson 0 "recovered".
Proof.
  rewrite (legacy_person_agrees
             [CallInfect 2; CallUpdateState; CallInfect 7; CallUpdateState]).
  - reflexivity.
  - unfold positive_durations, INT_MAX. repeat constructor; lia.
Defined.

(** X16. In Simulation.cpp a person infected with a duration [d <= 0] (the
    value the population passes until [setSickDays] is called) does not
    recover: after [n] calls of [currentState] it is still sick, with
    countdown [d - n], as long as that is an [int]. *)
Theorem legacy_nonpositive_duration_never_recovers (d : Z) (n : nat) :
  d <= 0 -> - 2 ^ 31 <= d - Z.of_nat n ->
  Legacy.person_run (CallInfect d :: replicate n CallUpdateState) Person_new
  = mkPerson (d - Z.of_nat n) "sick".
Proof.
  intros Hd Hn. unfold Legacy.person_run. cbn [fold_left Legacy.person_step].
  change (Legacy.infect d Person_new) with (mkPerson d "sick").
  now apply legacy_stays_sick.
Qed.

Lemma legacy_nonpositive_duration_never_recovers_witness :
  Legacy.person_run (CallInfect 0 :: replicate 90 CallUpdateState) Person_new
  = mkPerson (-90) "sick".
Proof.
  apply (legacy_nonpositive_duration_never_recovers 0 90); lia.
Defined.

Section LegacyPopulation.

Variable ratio : Z -> Q.

Lemma legacy_infectRandomPersons_spec (gen : mt19937) (p : Legacy.Population) :
  Z.of_nat (length (Legacy.Pop p)) = Legacy.size p ->
  1 <= Legacy.size p <= INT_MAX ->
  exists p',
    Legacy.infectRandomPersons gen p = Some p' /\
    Legacy.countInfected p' = 1 /\
    Legacy.countSusceptible p' = Legacy.countSusceptible p /\
    Legacy.countRecoverred p' = Legacy.countRecoverred p /\
    Legacy.size p' = Legacy.size p /\
    length (Legacy.Pop p') = length (Legacy.Pop p).
Proof.
  intros Hlen Hsize. unfold Legacy.infectRandomPersons. cbn [Legacy.size].
  rewrite to_int_small by (unfold INT_MAX in *; lia).
  pose proof (uniform_int_in_range 0 (Legacy.size p - 1) gen ltac:(lia)) as Hrange.
  destruct (uniform_int_distribution 0 (Legacy.size p - 1) gen) as [index gen'].
  cbn [fst] in Hrange. unfold Legacy.thePersonToinfect. cbn [Legacy.Pop].
  assert (Hlt : (Z.to_nat index < length (Legacy.Pop p))%nat) by lia.
  destruct (lookup_lt_is_Some_2 _ _ Hlt) as [who ->].
  eexists. split; [reflexivity|]. cbn. rewrite length_insert. auto.
Qed.

Lemma legacy_contractLoop_total (p : Legacy.Population) (fuel : nat) :
  1 <= Z.of_nat (length (Legacy.Pop p)) <= INT_MAX ->
  forall i gen newly,
    0 <= i ->
    Z.min (Legacy.contacts p) (Z.of_nat (length (Legacy.Pop p)) - 1) - i
      <= Z.of_nat fuel ->
    Forall (fun k => (k < length (Legacy.Pop p))%nat) newly ->
    exists ns,
      Legacy.contractLoop ratio fuel i p gen newly = Some ns /\
      Forall (fun k => (k < length (Legacy.Pop p))%nat) ns.
Proof.
  intros Hlen. set (n := Z.of_nat (length (Legacy.Pop p))) in *.
  assert (Hn : to_int n = n) by (apply to_int_small; unfold INT_MAX in *; lia).
  assert (Hn1 : to_int (n - 1) = n - 1)
    by (apply to_int_small; unfold INT_MAX in *; lia).
  induction fuel as [|fuel IH]; intros i gen newly Hi Hfuel Hnewly;
    cbn [Legacy.contractLoop]; fold n; rewrite Hn, Hn1;
    destruct (Z.ltb_spec i (Z.min (Legacy.contacts p) (n - 1))); eauto;
    [simpl in Hfuel; lia|].
  rewrite to_int_small by (unfold INT_MAX in *; lia).
  destruct (engine_next gen) as [g gen1].
  destruct (Qle_bool (ratio (g mod 2 ^ 32)) (Legacy.probability p)).
  - pose proof (uniform_int_in_range 0 (n - 1) gen1 ltac:(lia)) as Hrange.
    destruct (uniform_int_distribution 0 (n - 1) gen1) as [index gen2].
    cbn [fst] in Hrange.
    assert (Hlt : (Z.to_nat index < length (Legacy.Pop p))%nat)
      by (unfold n in Hrange; lia).
    destruct (lookup_lt_is_Some_2 _ _ Hlt) as [who ->].
    apply IH; [lia | lia |]. apply Forall_app. split; [exact Hnewly|].
    now constructor.
  - apply IH; [lia | lia | exact Hnewly].
Qed.

Lemma legacy_stateLoop_spec (rd : nat -> mt19937) (todo : nat) :
  forall i s,
    (i + todo = length (Legacy.Pop (Legacy.object s)))%nat ->
    Z.of_nat (length (Legacy.Pop (Legacy.object s))) <= INT_MAX ->
    0 <= Legacy.theinfectcount s ->
    0 <= Legacy.theSusceptibleCount s ->
    0 <= Legacy.theRecoveredCount s ->
    Legacy.theinfectcount s + Z.of_nat todo <= INT_MAX ->
    Legacy.theSusceptibleCount s + Z.of_nat todo <= INT_MAX ->
    Legacy.theRecoveredCount s + Z.of_nat todo <= INT_MAX ->
    Forall (fun k => (k < length (Legacy.Pop (Legacy.object s)))%nat)
           (Legacy.newly_infected s) ->
    exists s' l,
      Legacy.stateLoop ratio todo i rd s = Some s' /\
      Legacy.object s' = Legacy.set_Pop l (Legacy.object s) /\
      length l = length (Legacy.Pop (Legacy.object s)) /\
      Legacy.theinfectcount s'
      = Legacy.theinfectcount s
        + tally isInfected (drop i (Legacy.Pop (Legacy.object s))) /\
      Legacy.theSusceptibleCount s'
      = Legacy.theSusceptibleCount s
        + tally isSusceptible (drop i (Legacy.Pop (Legacy.object s))) /\
      Legacy.theRecoveredCount s'
      = Legacy.theRecoveredCount s
        + tally isRecovered (drop i (Legacy.Pop (Legacy.object s))) /\
      Forall (fun k => (k < length l)%nat) (Legacy.newly_infected s').
Proof.
  induction todo as [|todo IH];
    intros i s Hlen Hmax Hi0 Hs0 Hr0 Hi1 Hs1 Hr1 Hnewly.
  - exists s, (Legacy.Pop (Legacy.object s)). cbn [Legacy.stateLoop].
    rewrite drop_ge by lia. unfold tally. simpl. rewrite !Z.add_0_r.
    destruct s as [[] ? ? ? ?]. auto 10.
  - set (P := Legacy.Pop (Legacy.object s)) in *.
    assert (Hlt : (i < length P)%nat) by lia.
    destruct (lookup_lt_is_Some_2 _ _ Hlt) as [person Hperson].
    cbn [Legacy.stateLoop]. fold P. rewrite Hperson.
    rewrite (drop_S P person i Hperson), !tally_cons.
    assert (Hcounted : exists ci cs cr newly,
      (if String.eqb (getStatus person) "sick" then
         match Legacy.contract ratio (rd i) (Legacy.object s) (Legacy.newly_infected s) with
         | None => None
         | Some newly =>
             Some (to_int (Legacy.theinfectcount s + 1), Legacy.theSusceptibleCount s,
                   Legacy.theRecoveredCount s, newly)
         end
       else if String.eqb (getStatus person) "susceptible" then
         Some (Legacy.theinfectcount s, to_int (Legacy.theSusceptibleCount s + 1),
               Legacy.theRecoveredCount s, Legacy.newly_infected s)
       else if String.eqb (getStatus person) "recovered" then
         Some (Legacy.theinfectcount s, Legacy.theSusceptibleCount s,
               to_int (Legacy.theRecoveredCount s + 1), Legacy.newly_infected s)
       else
         Some (Legacy.theinfectcount s, Legacy.theSusceptibleCount s,
               Legacy.theRecoveredCount s, Legacy.newly_infected s))
      = Some (ci, cs, cr, newly) /\
      ci = Legacy.theinfectcount s + (if isInfected person then 1 else 0) /\
      cs = Legacy.theSusceptibleCount s + (if isSusceptible person then 1 else 0) /\
      cr = Legacy.theRecoveredCount s + (if isRecovered person then 1 else 0) /\
      Forall (fun k => (k < length P)%nat) newly).
    { change (String.eqb (getStatus person) "sick") with (isInfected person).
      change (String.eqb (getStatus person) "susceptible") with (isSusceptible person).
      change (String.eqb (getStatus person) "recovered") with (isRecovered person).
      destruct (isInfected person) eqn:EI.
      - rewrite (sick_not_susceptible person EI).
        assert (isRecovered person = false) as ->.
        { destruct (isRecovered person) eqn:ER; [|reflexivity].
          apply recovered_not_sick in ER. congruence. }
        unfold Legacy.contract. fold P.
        destruct (legacy_contractLoop_total (Legacy.object s) (length P)
                    ltac:(fold P; lia) 0 (rd i) (Legacy.newly_infected s)
                    ltac:(lia) ltac:(fold P; lia) Hnewly) as (ns & -> & Hns).
        rewrite to_int_small by (unfold INT_MAX in *; lia).
        eexists _, _, _, _. split; [reflexivity|]. repeat split; auto; lia.
      - destruct (isSusceptible person) eqn:ES.
        + assert (isRecovered person = false) as ->.
          { destruct (isRecovered person) eqn:ER; [|reflexivity].
            apply recovered_not_susceptible in ER. congruence. }
          rewrite to_int_small by (unfold INT_MAX in *; lia).
          eexists _, _, _, _. split; [reflexivity|]. repeat split; auto; lia.
        + destruct (isRecovered person) eqn:ER.
          * rewrite to_int_small by (unfold INT_MAX in *; lia).
            eexists _, _, _, _. split; [reflexivity|]. repeat split; auto; lia.
          * eexists _, _, _, _. split; [reflexivity|]. repeat split; auto; lia. }
    destruct Hcounted as (ci & cs & cr & newly & -> & Hci & Hcs & Hcr & Hnew).
    destruct (IH (S i)
                {| Legacy.object :=
                     Legacy.set_Pop (<[i := Legacy.personCurrentState person]> P)
                       (Legacy.object s);
                   Legacy.theinfectcount := ci;
                   Legacy.theSusceptibleCount := cs;
                   Legacy.theRecoveredCount := cr;
                   Legacy.newly_infected := newly |})
      as (s' & l & E & Hobj & Hl & Hi' & Hs' & Hr' & Hnew').
    all: cbn [Legacy.object Legacy.Pop Legacy.set_Pop Legacy.theinfectcount
              Legacy.theSusceptibleCount Legacy.theRecoveredCount
              Legacy.newly_infected]; rewrite ?length_insert; try (fold P); try lia.
    { destruct (isInfected person); lia. }
    { destruct (isSusceptible person); lia. }
    { destruct (isRecovered person); lia. }
    { destruct (isInfected person); lia. }
    { destruct (isSusceptible person); lia. }
    { destruct (isRecovered person); lia. }
    { exact Hnew. }
    cbn [Legacy.object Legacy.Pop Legacy.set_Pop Legacy.theinfectcount
         Legacy.theSusceptibleCount Legacy.theRecoveredCount
         Legacy.newly_infected] in *.
    rewrite length_insert in Hl. rewrite drop_insert_lt in Hi', Hs', Hr' by lia.
    exists s', l. rewrite E, Hobj, Hi', Hs', Hr'.
    split; [reflexivity | split; [reflexivity | split; [exact Hl|]]].
    repeat split; try lia. exact Hnew'.
Qed.

Lemma legacy_infectLoop_spec (newly : list nat) :
  forall p,
    Forall (fun k => (k < length (Legacy.Pop p))%nat) newly ->
    exists l,
      Legacy.infectLoop newly p = Some (Legacy.set_Pop l p) /\
      length l = length (Legacy.Pop p).
Proof.
  induction newly as [|k newly IH]; intros p Hnewly.
  - exists (Legacy.Pop p). destruct p. auto.
  - apply Forall_cons in Hnewly as [Hk Hnewly].
    destruct (lookup_lt_is_Some_2 _ _ Hk) as [who Hwho].
    cbn [Legacy.infectLoop]. unfold Legacy.thePersonToinfect. rewrite Hwho.
    destruct (IH (Legacy.set_Pop
                    (<[k := Legacy.infect (Legacy.infectionDays p) who]> (Legacy.Pop p))
                    p)) as (l & E & Hl).
    { cbn. rewrite length_insert. exact Hnewly. }
    exists l. rewrite E. cbn in Hl. rewrite length_insert in Hl. auto.
Qed.

End LegacyPopulation.

(** X17. In Simulation.cpp every [infectRandomPersons] call overwrites
    [countInfected] with 1 and leaves the other two counts alone: after one
    or more seeding calls on a population of [N >= 1] members the counts
    read I=1 with S and R as before, so after construction they add up to
    N + 1. *)
Theorem legacy_seeding_sets_infected_count_to_one
    (gen : mt19937) (gens : list mt19937) (p : Legacy.Population) :
  Z.of_nat (length (Legacy.Pop p)) = Legacy.size p ->
  1 <= Legacy.size p <= INT_MAX ->
  exists p',
    legacy_seed (gen :: gens) p = Some p' /\
    Legacy.countInfected p' = 1 /\
    Legacy.countSusceptible p' = Legacy.countSusceptible p /\
    Legacy.countRecoverred p' = Legacy.countRecoverred p.
Proof.
  revert gen p. induction gens as [|g gens IH]; intros gen p Hlen Hsize;
    destruct (legacy_infectRandomPersons_spec gen p Hlen Hsize)
      as (p1 & E & Hi & Hs & Hr & Hsz & Hl); cbn [legacy_seed]; rewrite E.
  - exists p1. auto.
  - destruct (IH g p1 ltac:(lia) ltac:(lia)) as (p' & E' & Hi' & Hs' & Hr').
    exists p'. cbn [legacy_seed] in E'. rewrite E'.
    split; [reflexivity | split; [exact Hi' | split; congruence]].
Qed.

Lemma legacy_seeding_sets_infected_count_to_one_witness :
  exists p',
    legacy_seed [engine_of [0]; engine_of [1]; engine_of [2]] (Legacy.new 4) = Some p' /\
    Legacy.countSusceptible p' + Legacy.countInfected p' + Legacy.countRecoverred p' = 5.
Proof.
  destruct (legacy_seeding_sets_infected_count_to_one (engine_of [0])
              [engine_of [1]; engine_of [2]] (Legacy.new 4))
    as (p' & E & Hi & Hs & Hr).
  - reflexivity.
  - unfold INT_MAX. simpl. lia.
  - exists p'. split; [exact E|]. rewrite Hi, Hs, Hr. reflexivity.
Defined.

(** X18. In Simulation.cpp, [Population::currentState] counts each member
    before updating it and before the day's infections are applied: the
    call returns, the day counter advances, and the three counts it leaves
    are the numbers of susceptible, infected and recovered members at the
    start of the call, not at its end. *)
Theorem legacy_counts_lag_one_day
    (ratio : Z -> Q) (rd : nat -> mt19937) (p : Legacy.Population) :
  Z.of_nat (length (Legacy.Pop p)) <= INT_MAX ->
  exists p',
    Legacy.currentState ratio rd p = Some p' /\
    (Legacy.countSusceptible p', Legacy.countInfected p', Legacy.countRecoverred p')
    = census (Legacy.Pop p) /\
    Legacy.day p' = to_int (Legacy.day p + 1) /\
    length (Legacy.Pop p') = length (Legacy.Pop p).
Proof.
  intros Hmax.
  destruct (legacy_stateLoop_spec ratio rd (length (Legacy.Pop p)) 0
              {| Legacy.object := p; Legacy.theinfectcount := 0;
                 Legacy.theSusceptibleCount := 0; Legacy.theRecoveredCount := 0;
                 Legacy.newly_infected := [] |})
    as (s & l & E & Hobj & Hl & Hi & Hs & Hr & Hnewly);
    cbn [Legacy.object Legacy.theinfectcount Legacy.theSusceptibleCount
         Legacy.theRecoveredCount Legacy.newly_infected]; try lia; try constructor.
  cbn [Legacy.object Legacy.theinfectcount Legacy.theSusceptibleCount
       Legacy.theRecoveredCount Legacy.newly_infected] in *.
  unfold Legacy.currentState. rewrite E, Hobj.
  cbn [Legacy.day Legacy.size Legacy.probability Legacy.contacts
       Legacy.infectionDays Legacy.Pop Legacy.set_Pop].
  match goal with |- context [Legacy.infectLoop ?ks ?q] =>
    destruct (legacy_infectLoop_spec ks q) as (l' & E' & Hl') end.
  { exact Hnewly. }
  rewrite E'. eexists. split; [reflexivity|].
  cbn [Legacy.countSusceptible Legacy.countInfected Legacy.countRecoverred
       Legacy.day Legacy.Pop Legacy.set_Pop] in *.
  rewrite Hi, Hs, Hr. unfold census. cbn [drop]. rewrite !Z.add_0_l.
  split; [reflexivity | split; [reflexivity | lia]].
Qed.

Lemma legacy_counts_lag_one_day_witness :
  exists p',
    Legacy.currentState (fun _ => 0%Q) (fun _ => engine_of [0; 1])
      (Legacy.mkPopulation 0 2 1 1 0 1 1 3 [mkPerson 1 "sick"; Person_new]) = Some p' /\
    Legacy.Pop p' = [mkPerson 0 "recovered"; mkPerson 3 "sick"] /\
    (Legacy.countSusceptible p', Legacy.countInfected p', Legacy.countRecoverred p')
    = (1, 1, 0).
Proof.
  destruct (legacy_counts_lag_one_day (fun _ => 0%Q) (fun _ => engine_of [0; 1])
              (Legacy.mkPopulation 0 2 1 1 0 1 1 3 [mkPerson 1 "sick"; Person_new]))
    as (p' & E & Hcounts & _).
  - vm_compute. discriminate.
  - exists p'. split; [exact E|]. split; [|exact Hcounts].
    vm_compute in E. injection E as <-. reflexivity.
Defined.

(** * The contacts an infected member draws *)

Section ContactDraws.








End ContactDraws.




(** C2 as stated fails for a call made with a non-positive duration: with
    [infectionDuration] set to -1 after the seeding, the susceptible member
    selected during the call is not infected, the call throws.  The draws
    are those of [std::mt19937] seeded with 3 in a population of two:
    [personDis] returns 1 and [probDis] returns 303761048 / 2^32. *)
Lemma selected_member_not_infected_on_invalid_duration :
  exists p0 p s p',
    Population_new 2 = inr p0 /\
    cohort_run [CallSetInfectionProbability 1; CallSetContactsPerDay 1;
                CallSetInfectionDuration 3;
                CallInfectRandomPerson (engine_of [0]);
                CallSetInfectionDuration (-1)] p0 = Some p /\
    population p = [mkPerson 3 "sick"; Person_new] /\
    dayLoop (fun _ => engine_of [1; 303761048]) p = Some s /\
    newly s = [1%nat] /\
    simulateOneDay (fun _ => engine_of [1; 303761048]) p = Thrown invalid_argument p' /\
    population p' = [mkPerson 2 "sick"; Person_new].
Proof.
  do 4 eexists. split; [reflexivity|]. split; [vm_compute; reflexivity|].
  split; [reflexivity|]. split; [vm_compute; reflexivity|].
  split; [reflexivity|]. split; [vm_compute; reflexivity | reflexivity].
Qed.

(** C10.  With probability 0 configured, a contact whose uniform draw is
    exactly 0 passes the test [probDis(gen) <= infectionProbability].  In a
    population of four with three contacts per day and member 0 infected,
    the engine [std::mt19937] seeded with 257678572 (outputs 1876089518,
    1305349985, 4230925827, 232349481, 3211138420, 0) makes [personDis]
    return 1, 3, 2 and [probDis] return 1305349985 / 2^32, 232349481 / 2^32
    and 0: the first two rolls fail, the third passes, and the susceptible
    member 2 ends the day infected. *)
Theorem zero_probability_still_transmits :
  exists p0 p s d,
    Population_new 4 = inr p0 /\
    cohort_run [CallSetInfectionProbability 0; CallSetContactsPerDay 3;
                CallSetInfectionDuration 3;
                CallInfectRandomPerson (engine_of [0])] p0 = Some p /\
    population p = [mkPerson 3 "sick"; Person_new; Person_new; Person_new] /\
    Qeq (getInfectionProbability p) 0 /\
    dayLoop (fun _ => engine_of [1; 1305349985; 3; 232349481; 2; 0]) p = Some s /\
    contactLog s = [(0%nat, [1%nat; 3%nat; 2%nat])] /\
    newly s = [2%nat] /\
    simulateOneDay (fun _ => engine_of [1; 1305349985; 3; 232349481; 2; 0]) p
      = Returned d /\
    population d = [mkPerson 2 "sick"; Person_new; mkPerson 3 "sick"; Person_new].
Proof.
  do 4 eexists. split; [reflexivity|]. split; [vm_compute; reflexivity|].
  split; [reflexivity|]. split; [reflexivity|].
  split; [vm_compute; reflexivity|]. split; [reflexivity|]. split; [reflexivity|].
  split; [vm_compute; reflexivity | reflexivity].
Qed.
